(** * MediaPipeSkeletonDetector: a shallow embedding

    Source: [src/core_processor/mediapipe_skeleton_detector/mediapipe_skeleton_detector.py].

    Python floats and the cells of the [float64] numpy arrays are IEEE 754
    binary64 numbers, modelled by Rocq's primitive floats; [nan] is numpy's
    [np.nan].  A numpy array is its [shape] together with its cells as nested
    lists (outermost axis first).  Python exceptions are values of [exn];
    code that can raise returns a [result].  The session pipeline talks to
    collaborators outside the repository (the video decoder, the holistic
    tracker, the drawing utilities, the video recorder and [np.save]); these
    are section variables or part of the [World] that is threaded through.
    Calls to [logger] are left out. *)

From Stdlib Require Import Floats ZArith Lia Ascii String.
From stdpp Require Import base tactics option list strings.

Set Default Proof Using "Type".

(** ** Exceptions *)

Inductive exn : Type :=
| Exception                                  (* a bare [raise Exception] *)
| IndexError                                 (* list index out of range *)
| TypeError                                  (* ['bool' object is not iterable] *)
| ValueError_concatenate                     (* [np.hstack]: dimensions differ *)
| ValueError_broadcast (src dst : list nat)  (* could not broadcast [src] into [dst] *)
| CollaboratorError (who : string).          (* raised inside an external call *)

Inductive result (A : Type) : Type :=
| Ok (a : A)
| Raise (e : exn).
Arguments Ok {A} a.
Arguments Raise {A} e.

Definition bindR {A B} (c : result A) (k : A -> result B) : result B :=
  match c with
  | Ok a => k a
  | Raise e => Raise e
  end.

Declare Scope result_scope.
Delimit Scope result_scope with result.
Notation "'let!' x ':=' c 'in' k" := (bindR c (fun x => k))
  (at level 10, x pattern, c at level 100, k at level 200) : result_scope.
Open Scope result_scope.

(** A Python [for i, a in enumerate(l)] loop whose body may raise; the loop
    state is passed along. *)
Fixpoint for_enumerate {St A} (body : St -> nat -> A -> result St)
    (i : nat) (l : list A) (s : St) : result St :=
  match l with
  | [] => Ok s
  | a :: l' => let! s' := body s i a in for_enumerate body (S i) l' s'
  end.

(** A Python [for a in l] loop whose body may raise. *)
Fixpoint for_each {St A} (body : St -> A -> result St) (l : list A) (s : St)
    : result St :=
  match l with
  | [] => Ok s
  | a :: l' => let! s' := body s a in for_each body l' s'
  end.

(** ** numpy arrays *)

(** A two-dimensional array, [shape2 = (rows, columns)]. *)
Record ndarray2 : Type := {
  shape2 : nat * nat;
  cells2 : list (list float)
}.

(** A three-dimensional array, [shape3 = (frames, points, dimensions)]. *)
Record ndarray3 : Type := {
  shape3 : nat * nat * nat;
  cells3 : list (list (list float))
}.

(** A four-dimensional array, [shape4 = (cameras, frames, points, dimensions)]. *)
Record ndarray4 : Type := {
  shape4 : nat * nat * nat * nat;
  cells4 : list (list (list (list float)))
}.

(** [a = np.zeros((n0, n1)); a[:] = np.nan] *)
Definition np_nan2 (n0 n1 : nat) : ndarray2 :=
  {| shape2 := (n0, n1); cells2 := replicate n0 (replicate n1 nan) |}.

(** [a = np.zeros((n0, n1, n2)); a[:] = np.nan] *)
Definition np_nan3 (n0 n1 n2 : nat) : ndarray3 :=
  {| shape3 := (n0, n1, n2);
     cells3 := replicate n0 (replicate n1 (replicate n2 nan)) |}.

(** [a[f, :] = v]: every cell of row [f] becomes [v]; an index outside the
    first axis raises. *)
Definition setitem_row (a : ndarray2) (f : nat) (v : float) : result ndarray2 :=
  let '(n0, n1) := shape2 a in
  if f <? n0
  then Ok {| shape2 := shape2 a; cells2 := alter (fmap (fun _ => v)) f (cells2 a) |}
  else Raise IndexError.

(** [a[f, :, k] = v]: in frame [f], coordinate [k] of every point becomes [v];
    an index outside its axis raises. *)
Definition setitem_column (a : ndarray3) (f k : nat) (v : float) : result ndarray3 :=
  let '(n0, n1, n2) := shape3 a in
  if (f <? n0) && (k <? n2)
  then Ok {| shape3 := shape3 a;
             cells3 := alter (fmap (fun point => <[k := v]> point)) f (cells3 a) |}
  else Raise IndexError.

(** [a[f, :, :]]: the [points x dimensions] block of frame [f]. *)
Definition getitem_frame (a : ndarray3) (f : nat) : result (list (list float)) :=
  match cells3 a !! f with
  | Some block => Ok block
  | None => Raise IndexError
  end.

(** [np.isnan] on a two-dimensional block. *)
Definition np_isnan (block : list (list float)) : list (list bool) :=
  map (map PrimFloat.is_nan) block.

(** ** The expression [all(sum(np.isnan(block)) == 0)]

    Python's builtin [sum] starts from the integer [0] and adds the rows of
    the boolean block one after the other: the first addition turns the
    integer into an integer array (one count per column), the following ones
    add element by element.  Over a block without rows the result stays the
    integer [0], the comparison gives a plain [bool], and the builtin [all]
    raises [TypeError] on it. *)

Inductive py_num : Type :=
| PyInt (n : Z)
| PyIntArray (a : list Z).

Inductive py_truth : Type :=
| PyBool (b : bool)
| PyBoolArray (a : list bool).

Definition py_add (acc : py_num) (row : list bool) : py_num :=
  match acc with
  | PyInt n => PyIntArray (map (fun b => (n + Z.b2z b)%Z) row)
  | PyIntArray a => PyIntArray (zip_with Z.add a (map Z.b2z row))
  end.

Definition py_sum (rows : list (list bool)) : py_num :=
  fold_left py_add rows (PyInt 0).

Definition py_eq_zero (v : py_num) : py_truth :=
  match v with
  | PyInt n => PyBool (n =? 0)%Z
  | PyIntArray a => PyBoolArray (map (fun n => (n =? 0)%Z) a)
  end.

Definition py_all (v : py_truth) : result bool :=
  match v with
  | PyBool _ => Raise TypeError
  | PyBoolArray a => Ok (forallb id a)
  end.

Definition all_sum_isnan_eq_zero (block : list (list float)) : result bool :=
  py_all (py_eq_zero (py_sum (np_isnan block))).

(** ** Detection results *)

(** One landmark of the holistic model: normalized image coordinates and the
    [visibility] score. *)
Record Landmark : Type := {
  x : float;
  y : float;
  visibility : float
}.

(** A landmark list message; [landmark] is its repeated field. *)
Record NormalizedLandmarkList : Type := {
  landmark : list Landmark
}.

(** What [Holistic.process] returns for one image; a part that was not found
    is [None]. *)
Record MediapipeResults : Type := {
  pose_landmarks : option NormalizedLandmarkList;
  right_hand_landmarks : option NormalizedLandmarkList;
  left_hand_landmarks : option NormalizedLandmarkList;
  face_landmarks : option NormalizedLandmarkList
}.

(** ** The per-camera arrays *)

Record Mediapipe2dSingleCameraNpyArrays : Type := {
  body2d_frameNumber_trackedPointNumber_XY : ndarray3;
  rightHand2d_frameNumber_trackedPointNumber_XY : ndarray3;
  leftHand2d_frameNumber_trackedPointNumber_XY : ndarray3;
  face2d_frameNumber_trackedPointNumber_XY : ndarray3;
  body2d_frameNumber_trackedPointNumber_confidence : ndarray2
}.

(** [np.hstack] on three-dimensional arrays concatenates along axis 1 (the
    points); the other two axes must agree with those of the first array. *)
Fixpoint np_hstack_rest (n0 n2 : nat) (rest : list ndarray3)
    : result (nat * list (list (list float))) :=
  match rest with
  | [] => Ok (0, replicate n0 [])
  | a :: rest' =>
      let '(m0, m1, m2) := shape3 a in
      if (m0 =? n0) && (m2 =? n2)
      then let! r := np_hstack_rest n0 n2 rest' in
           Ok (m1 + r.1, zip_with app (cells3 a) r.2)
      else Raise ValueError_concatenate
  end.

Definition np_hstack (arrays : list ndarray3) : result ndarray3 :=
  match arrays with
  | [] => Raise ValueError_concatenate
  | a :: _ =>
      let '(n0, _, n2) := shape3 a in
      let! r := np_hstack_rest n0 n2 arrays in
      Ok {| shape3 := (n0, r.1, n2); cells3 := r.2 |}
  end.

(** The property [all_data2d_nFrames_nTrackedPts_XY]. *)
Definition all_data2d_nFrames_nTrackedPts_XY (m : Mediapipe2dSingleCameraNpyArrays)
    : result ndarray3 :=
  np_hstack [body2d_frameNumber_trackedPointNumber_XY m;
             rightHand2d_frameNumber_trackedPointNumber_XY m;
             leftHand2d_frameNumber_trackedPointNumber_XY m;
             face2d_frameNumber_trackedPointNumber_XY m].

(** ** File names *)

(** [fnmatch] against the pattern [*.mp4] on a file system that tells upper
    from lower case: the name ends in [.mp4]. *)
Fixpoint endswith (name suffix : string) : bool :=
  String.eqb name suffix
  || match name with
     | EmptyString => false
     | String _ name' => endswith name' suffix
     end.

(** [name.rfind('.')]; [None] stands for Python's [-1]. *)
Fixpoint rfind_dot (name : string) : option nat :=
  match name with
  | EmptyString => None
  | String c name' =>
      match rfind_dot name' with
      | Some i => Some (S i)
      | None => if Ascii.eqb c "."%char then Some 0 else None
      end
  end.

(** [pathlib]'s [PurePath.stem]: the name up to its last dot, when that dot is
    neither the first nor the last character. *)
Definition Path_stem (name : string) : string :=
  match rfind_dot name with
  | Some i =>
      if (0 <? i) && (i <? String.length name - 1)
      then substring 0 i name
      else name
  | None => name
  end.

(** ** The world outside the detector *)

(** [connections] arguments of [draw_landmarks]. *)
Inductive Connections : Type :=
| FACEMESH_CONTOURS
| FACEMESH_TESSELATION
| POSE_CONNECTIONS
| HAND_CONNECTIONS.

(** The arguments a [VideoRecorder] is built from. *)
Record VideoRecorder : Type := {
  recorder_video_name : string;
  recorder_image_width : float;
  recorder_image_height : float;
  recorder_session_id : option string;
  mediapipe_annotated_video_bool : bool
}.

Section Detector.

(** Decoded images and the internal state of the holistic tracker are opaque. *)
Variables Image Tracker : Type.

(** A file of the synchronized videos folder: its name, what
    [cv2.VideoCapture.get] answers for the frame size, and the pairs
    [(success, image)] that successive calls of [read] return; once these are
    used up, [read] returns [(False, None)]. *)
Record VideoFile : Type := {
  file_name : string;
  CAP_PROP_FRAME_WIDTH : float;
  CAP_PROP_FRAME_HEIGHT : float;
  frames : list (bool * option Image)
}.

Inductive Event : Type :=
| OpenedVideo (name : string)
| SavedAnnotatedVideo (recorder : VideoRecorder) (images : list Image) (frame_rate : Z)
| SavedNpy (name : string) (data : ndarray4).

Record World : Type := {
  tracker : Tracker;
  events : list Event
}.

(** Computations of the session pipeline: they read and change the world and
    may raise; what was done before an exception stays done. *)
Definition M (A : Type) : Type := World -> result A * World.

Definition ret {A} (a : A) : M A := fun w => (Ok a, w).

Definition raiseM {A} (e : exn) : M A := fun w => (Raise e, w).

Definition liftR {A} (r : result A) : M A := fun w => (r, w).

Definition bindM {A B} (c : M A) (k : A -> M B) : M B :=
  fun w =>
    match c w with
    | (Ok a, w') => k a w'
    | (Raise e, w') => (Raise e, w')
    end.

Definition emit (e : Event) : M unit :=
  fun w => (Ok tt, {| tracker := tracker w; events := events w ++ [e] |}).

Notation "'do!' x ':=' c 'in' k" := (bindM c (fun x => k))
  (at level 10, x pattern, c at level 100, k at level 200).

(** A [for] loop that appends one result per element to a list. *)
Fixpoint for_append {A B} (body : A -> M B) (l : list A) : M (list B) :=
  match l with
  | [] => ret []
  | a :: l' =>
      do! b := body a in
      do! bs := for_append body l' in
      ret (b :: bs)
  end.

(** *** Collaborators *)

(** [Holistic.process]: the tracker keeps state between images. *)
Variable holistic_process : Tracker -> Image -> MediapipeResults * Tracker.

(** [mp.solutions.drawing_utils.draw_landmarks] draws on the image it is given;
    the drawing styles are constants and left out. *)
Variable draw_landmarks :
  Image -> option NormalizedLandmarkList -> Connections -> result Image.

(** [VideoRecorder.save_image_list_to_disk]: [None] when the video was written. *)
Variable save_image_list_to_disk : VideoRecorder -> list Image -> Z -> option exn.

(** What [np.empty] leaves in a cell. *)
Variable uninitialized : float.

(** The tracked point catalogue [mediapipe_tracked_point_names_dict] (its
    module is not among the sources) and MediaPipe's constant
    [FACEMESH_NUM_LANDMARKS_WITH_IRISES]. *)
Variables body_names_list right_hand_names_list left_hand_names_list : list string.
Variable FACEMESH_NUM_LANDMARKS_WITH_IRISES : nat.

Variable _session_id : option string.

(** ** [_list_of_mediapipe_results_to_npy_arrays] *)

(** The local variables of the method that the frame loop changes. *)
Record ConversionLocals : Type := {
  arrays : Mediapipe2dSingleCameraNpyArrays;
  all_body_tracked_points_visible_on_this_frame_bool_list : list bool;
  all_right_hand_points_visible_on_this_frame_bool_list : list bool;
  all_left_hand_points_visible_on_this_frame_bool_list : list bool;
  all_face_points_visible_on_this_frame_bool_list : list bool;
  all_tracked_points_visible_on_this_frame_list : list bool
}.

(** Body of the loops over the landmarks of a hand or of the face. *)
Definition write_landmark_XY (this_frame_number : nat) (image_width image_height : float)
    (XY : ndarray3) (this_landmark_data : Landmark) : result ndarray3 :=
  let! XY := setitem_column XY this_frame_number 0 (x this_landmark_data * image_width)%float in
  setitem_column XY this_frame_number 1 (y this_landmark_data * image_height)%float.

(** Body of the loop over the landmarks of the body. *)
Definition write_body_landmark (this_frame_number : nat) (image_width image_height : float)
    (s : ndarray3 * ndarray2) (this_landmark_data : Landmark)
    : result (ndarray3 * ndarray2) :=
  let! XY := write_landmark_XY this_frame_number image_width image_height s.1 this_landmark_data in
  let! confidence := setitem_row s.2 this_frame_number (visibility this_landmark_data) in
  Ok (XY, confidence).

(** Body of the loop over the frames. *)
Definition convert_frame (image_width image_height : float)
    (st : ConversionLocals) (this_frame_number : nat) (this_frame_results : MediapipeResults)
    : result ConversionLocals :=
  let a := arrays st in
  let! body :=
    match pose_landmarks this_frame_results with
    | Some l =>
        for_each (write_body_landmark this_frame_number image_width image_height)
          (landmark l)
          (body2d_frameNumber_trackedPointNumber_XY a,
           body2d_frameNumber_trackedPointNumber_confidence a)
    | None =>
        Ok (body2d_frameNumber_trackedPointNumber_XY a,
            body2d_frameNumber_trackedPointNumber_confidence a)
    end in
  let! rightHand :=
    match right_hand_landmarks this_frame_results with
    | Some l =>
        for_each (write_landmark_XY this_frame_number image_width image_height)
          (landmark l) (rightHand2d_frameNumber_trackedPointNumber_XY a)
    | None => Ok (rightHand2d_frameNumber_trackedPointNumber_XY a)
    end in
  let! leftHand :=
    match left_hand_landmarks this_frame_results with
    | Some l =>
        for_each (write_landmark_XY this_frame_number image_width image_height)
          (landmark l) (leftHand2d_frameNumber_trackedPointNumber_XY a)
    | None => Ok (leftHand2d_frameNumber_trackedPointNumber_XY a)
    end in
  let! face :=
    match face_landmarks this_frame_results with
    | Some l =>
        for_each (write_landmark_XY this_frame_number image_width image_height)
          (landmark l) (face2d_frameNumber_trackedPointNumber_XY a)
    | None => Ok (face2d_frameNumber_trackedPointNumber_XY a)
    end in
  let! body_block := getitem_frame body.1 this_frame_number in
  let! all_body_visible := all_sum_isnan_eq_zero body_block in
  let! right_hand_block := getitem_frame rightHand this_frame_number in
  let! all_right_hand_visible := all_sum_isnan_eq_zero right_hand_block in
  let! left_hand_block := getitem_frame leftHand this_frame_number in
  let! all_left_hand_visible := all_sum_isnan_eq_zero left_hand_block in
  let! face_block := getitem_frame face this_frame_number in
  let! all_face_visible := all_sum_isnan_eq_zero face_block in
  let all_points_visible :=
    forallb id [all_body_visible; all_right_hand_visible;
                all_left_hand_visible; all_face_visible] in
  Ok {| arrays :=
          {| body2d_frameNumber_trackedPointNumber_XY := body.1;
             rightHand2d_frameNumber_trackedPointNumber_XY := rightHand;
             leftHand2d_frameNumber_trackedPointNumber_XY := leftHand;
             face2d_frameNumber_trackedPointNumber_XY := face;
             body2d_frameNumber_trackedPointNumber_confidence := body.2 |};
        all_body_tracked_points_visible_on_this_frame_bool_list :=
          all_body_tracked_points_visible_on_this_frame_bool_list st ++ [all_body_visible];
        all_right_hand_points_visible_on_this_frame_bool_list :=
          all_right_hand_points_visible_on_this_frame_bool_list st ++ [all_right_hand_visible];
        all_left_hand_points_visible_on_this_frame_bool_list :=
          all_left_hand_points_visible_on_this_frame_bool_list st ++ [all_left_hand_visible];
        all_face_points_visible_on_this_frame_bool_list :=
          all_face_points_visible_on_this_frame_bool_list st ++ [all_face_visible];
        all_tracked_points_visible_on_this_frame_list :=
          all_tracked_points_visible_on_this_frame_list st ++ [all_points_visible] |}.

(** The locals as they are before the frame loop. *)
Definition conversion_start (number_of_frames : nat) : ConversionLocals :=
  let number_of_body_trackedPoints := length body_names_list in
  let number_of_right_hand_trackedPoints := length right_hand_names_list in
  let number_of_left_hand_trackedPoints := length left_hand_names_list in
  let number_of_face_trackedPoints := FACEMESH_NUM_LANDMARKS_WITH_IRISES in
  let number_of_spatial_dimensions := 2 in
  {| arrays :=
       {| body2d_frameNumber_trackedPointNumber_XY :=
            np_nan3 number_of_frames number_of_body_trackedPoints number_of_spatial_dimensions;
          rightHand2d_frameNumber_trackedPointNumber_XY :=
            np_nan3 number_of_frames number_of_right_hand_trackedPoints number_of_spatial_dimensions;
          leftHand2d_frameNumber_trackedPointNumber_XY :=
            np_nan3 number_of_frames number_of_left_hand_trackedPoints number_of_spatial_dimensions;
          face2d_frameNumber_trackedPointNumber_XY :=
            np_nan3 number_of_frames number_of_face_trackedPoints number_of_spatial_dimensions;
          body2d_frameNumber_trackedPointNumber_confidence :=
            np_nan2 number_of_frames number_of_body_trackedPoints |};
     all_body_tracked_points_visible_on_this_frame_bool_list := [];
     all_right_hand_points_visible_on_this_frame_bool_list := [];
     all_left_hand_points_visible_on_this_frame_bool_list := [];
     all_face_points_visible_on_this_frame_bool_list := [];
     all_tracked_points_visible_on_this_frame_list := [] |}.

(** The method up to its [return]: the locals after the frame loop. *)
Definition conversion_locals (mediapipe_results_list : list MediapipeResults)
    (image_width image_height : float) : result ConversionLocals :=
  let number_of_frames := length mediapipe_results_list in
  for_enumerate (convert_frame image_width image_height) 0
    mediapipe_results_list (conversion_start number_of_frames).

Definition _list_of_mediapipe_results_to_npy_arrays
    (mediapipe_results_list : list MediapipeResults)
    (image_width image_height : float) : result Mediapipe2dSingleCameraNpyArrays :=
  let! st := conversion_locals mediapipe_results_list image_width image_height in
  Ok (arrays st).

(** ** The session pipeline *)

Definition detect_skeleton_in_image (raw_image : Image) : M MediapipeResults :=
  fun w =>
    let '(mediapipe_results, t) := holistic_process (tracker w) raw_image in
    (Ok mediapipe_results, {| tracker := t; events := events w |}).

Definition _annotate_image (image : Image) (mediapipe_results : MediapipeResults)
    : result Image :=
  let! image := draw_landmarks image (face_landmarks mediapipe_results) FACEMESH_CONTOURS in
  let! image := draw_landmarks image (face_landmarks mediapipe_results) FACEMESH_TESSELATION in
  let! image := draw_landmarks image (pose_landmarks mediapipe_results) POSE_CONNECTIONS in
  let! image := draw_landmarks image (left_hand_landmarks mediapipe_results) HAND_CONNECTIONS in
  let! image := draw_landmarks image (right_hand_landmarks mediapipe_results) HAND_CONNECTIONS in
  Ok image.

Definition save_annotated_videos (annotated_images_list : list Image)
    (video_file_name : string) (image_width image_height : float) : M unit :=
  let this_video_name := video_file_name +:+ "_mediapipe.mp4" in
  let video_recorder :=
    {| recorder_video_name := this_video_name;
       recorder_image_width := image_width;
       recorder_image_height := image_height;
       recorder_session_id := _session_id;
       mediapipe_annotated_video_bool := true |} in
  match save_image_list_to_disk video_recorder annotated_images_list 30 with
  | Some e => raiseM e
  | None => emit (SavedAnnotatedVideo video_recorder annotated_images_list 30)
  end.

Definition _save_mediapipe2d_data_to_npy
    (data2d_numCams_numFrames_numTrackedPts_XY : ndarray4) : M unit :=
  emit (SavedNpy "mediapipe_2dData_numCams_numFrames_numTrackedPoints_pixelXY.npy"
          data2d_numCams_numFrames_numTrackedPts_XY).

(** [synchronized_videos_path.glob('*.mp4')], in the order of the listing. *)
Definition glob_mp4 (folder : list VideoFile) : list VideoFile :=
  filter (fun file => endswith (file_name file) ".mp4" = true) folder.

(** [image is None] *)
Definition is_None {A} (image : option A) : bool :=
  match image with
  | None => true
  | Some _ => false
  end.

(** [VideoCapture.read] *)
Definition VideoCapture_read (capture : list (bool * option Image))
    : (bool * option Image) * list (bool * option Image) :=
  match capture with
  | [] => ((false, None), [])
  | r :: capture' => (r, capture')
  end.

(** The loop [while success and image is not None], entered with the outcome
    of the read before it.  Where the stream is used up, the [read] that ends
    the loop body returns [(False, None)] and the loop is left. *)
Fixpoint read_frames (capture : list (bool * option Image))
    (success : bool) (image : option Image)
    (this_video_mediapipe_results_list : list MediapipeResults)
    (this_video_annotated_images_list : list Image)
    : M (list MediapipeResults * list Image) :=
  match success, image with
  | true, Some image =>
      do! mediapipe_results := detect_skeleton_in_image image in
      do! annotated_image := liftR (_annotate_image image mediapipe_results) in
      let results := this_video_mediapipe_results_list ++ [mediapipe_results] in
      let annotated := this_video_annotated_images_list ++ [annotated_image] in
      match capture with
      | [] => ret (results, annotated)
      | (success, image) :: capture' =>
          read_frames capture' success image results annotated
      end
  | _, _ => ret (this_video_mediapipe_results_list, this_video_annotated_images_list)
  end.

(** Body of the loop over the videos of the session. *)
Definition process_video (save_annotated_videos_flag : bool)
    (this_synchronized_video_file_path : VideoFile)
    : M Mediapipe2dSingleCameraNpyArrays :=
  do! _ := emit (OpenedVideo (file_name this_synchronized_video_file_path)) in
  let this_video_width := CAP_PROP_FRAME_WIDTH this_synchronized_video_file_path in
  let this_video_height := CAP_PROP_FRAME_HEIGHT this_synchronized_video_file_path in
  let '((success, image), capture) :=
    VideoCapture_read (frames this_synchronized_video_file_path) in
  if negb success || is_None image
  then raiseM Exception
  else
    do! lists := read_frames capture success image [] [] in
    do! _ :=
      if save_annotated_videos_flag
      then save_annotated_videos lists.2
             (Path_stem (file_name this_synchronized_video_file_path))
             this_video_width this_video_height
      else ret tt in
    liftR (_list_of_mediapipe_results_to_npy_arrays lists.1
             this_video_width this_video_height).

(** [np.empty(shape)] *)
Definition np_empty4 (n0 n1 n2 n3 : nat) : ndarray4 :=
  {| shape4 := (n0, n1, n2, n3);
     cells4 := replicate n0 (replicate n1 (replicate n2 (replicate n3 uninitialized))) |}.

(** numpy's broadcasting along one axis: an axis of length 1 is repeated. *)
Definition broadcastable (src dst : nat) : bool := (src =? dst) || (src =? 1).

Definition broadcast_axis {A} (src dst : nat) (l : list A) : list A :=
  if src =? dst then l
  else match l with
       | [a] => replicate dst a
       | _ => l
       end.

(** [data[cam, :, :, :] = a]: the value is broadcast to the shape of a camera's
    slab, or the assignment raises. *)
Definition setitem_camera (data : ndarray4) (cam : nat) (a : ndarray3)
    : result ndarray4 :=
  let '(n_cams, n0, n1, n2) := shape4 data in
  let '(m0, m1, m2) := shape3 a in
  if negb (cam <? n_cams) then Raise IndexError
  else if broadcastable m0 n0 && broadcastable m1 n1 && broadcastable m2 n2
  then Ok {| shape4 := shape4 data;
             cells4 :=
               <[cam := broadcast_axis m0 n0
                          (map (fun frame =>
                                  broadcast_axis m1 n1
                                    (map (broadcast_axis m2 n2) frame))
                               (cells3 a))]>
                 (cells4 data) |}
  else Raise (ValueError_broadcast [m0; m1; m2] [n0; n1; n2]).

(** The list comprehension [[m2d.all_data2d_nFrames_nTrackedPts_XY for m2d in
    mediapipe2d_single_camera_npy_arrays_list]]. *)
Definition all_cameras_data2d
    (mediapipe2d_single_camera_npy_arrays_list : list Mediapipe2dSingleCameraNpyArrays)
    : result (list ndarray3) :=
  for_each (fun acc m2d =>
              let! a := all_data2d_nFrames_nTrackedPts_XY m2d in Ok (acc ++ [a]))
    mediapipe2d_single_camera_npy_arrays_list [].

(** From [number_of_cameras = len(all_cameras_data2d_list)] to the end of the
    loop that fills the stacked array.  [for this_cam_num in
    range(number_of_cameras)] reads [all_cameras_data2d_list[this_cam_num]],
    which is the enumeration of that list. *)
Definition stack_cameras (all_cameras_data2d_list : list ndarray3) : result ndarray4 :=
  let number_of_cameras := length all_cameras_data2d_list in
  match all_cameras_data2d_list with
  | [] => Raise IndexError
  | first :: _ =>
      let '(number_of_frames, number_of_tracked_points, number_of_spatial_dimensions) :=
        shape3 first in
      if negb (number_of_spatial_dimensions =? 2)
      then Raise Exception
      else
        let data2d_numCams_numFrames_numTrackedPts_XY :=
          np_empty4 number_of_cameras number_of_frames
            number_of_tracked_points number_of_spatial_dimensions in
        for_enumerate setitem_camera 0 all_cameras_data2d_list
          data2d_numCams_numFrames_numTrackedPts_XY
  end.

(** The code of [process_session_folder] after the loop over the videos, up
    to the call that persists the array. *)
Definition assemble_cameras
    (mediapipe2d_single_camera_npy_arrays_list : list Mediapipe2dSingleCameraNpyArrays)
    : result ndarray4 :=
  let! all_cameras_data2d_list :=
    all_cameras_data2d mediapipe2d_single_camera_npy_arrays_list in
  stack_cameras all_cameras_data2d_list.

Definition process_session_folder (folder : list VideoFile)
    (save_annotated_videos_flag : bool) : M ndarray4 :=
  do! mediapipe2d_single_camera_npy_arrays_list :=
    for_append (process_video save_annotated_videos_flag) (glob_mp4 folder) in
  do! data2d_numCams_numFrames_numTrackedPts_XY :=
    liftR (assemble_cameras mediapipe2d_single_camera_npy_arrays_list) in
  do! _ := _save_mediapipe2d_data_to_npy data2d_numCams_numFrames_numTrackedPts_XY in
  ret data2d_numCams_numFrames_numTrackedPts_XY.

(** * Vocabulary of the properties *)

Definition wf_block (n1 n2 : nat) (block : list (list float)) : Prop :=
  length block = n1 /\ Forall (fun point => length point = n2) block.

Definition wf3 (a : ndarray3) : Prop :=
  length (cells3 a) = (shape3 a).1.1
  /\ Forall (wf_block (shape3 a).1.2 (shape3 a).2) (cells3 a).

Definition wf2 (a : ndarray2) : Prop :=
  length (cells2 a) = (shape2 a).1
  /\ Forall (fun row => length row = (shape2 a).2) (cells2 a).

(** The pixel coordinates written for a landmark. *)
Definition pixel_XY (image_width image_height : float) (lm : Landmark) : list float :=
  [(x lm * image_width)%float; (y lm * image_height)%float].

(** No cell of the block is NaN. *)
Definition no_nan (block : list (list float)) : bool :=
  forallb (forallb (fun v => negb (PrimFloat.is_nan v))) block.

(** The block a part has in a frame, by the detection result of that frame:
    constant at the pixel coordinates of the last landmark, or all NaN. *)
Definition part_block (n1 : nat) (w h : float) (l : option NormalizedLandmarkList)
    : list (list float) :=
  match l with
  | Some l =>
      match last (landmark l) with
      | Some lm => replicate n1 (pixel_XY w h lm)
      | None => replicate n1 (replicate 2 nan)
      end
  | None => replicate n1 (replicate 2 nan)
  end.

(** The confidence row of a frame. *)
Definition confidence_row (n1 : nat) (l : option NormalizedLandmarkList) : list float :=
  match l with
  | Some l =>
      match last (landmark l) with
      | Some lm => replicate n1 (visibility lm)
      | None => replicate n1 nan
      end
  | None => replicate n1 nan
  end.

(** A coordinate array once the frames [done] are converted and [k] frames
    are still to come. *)
Definition blocks_after (n1 : nat) (w h : float)
    (part : MediapipeResults -> option NormalizedLandmarkList)
    (done : list MediapipeResults) (k : nat) : ndarray3 :=
  {| shape3 := (length done + k, n1, 2);
     cells3 := ((fun r => part_block n1 w h (part r)) <$> done)
               ++ replicate k (replicate n1 (replicate 2 nan)) |}.

Definition confidence_after (n1 : nat) (done : list MediapipeResults) (k : nat)
    : ndarray2 :=
  {| shape2 := (length done + k, n1);
     cells2 := ((fun r => confidence_row n1 (pose_landmarks r)) <$> done)
               ++ replicate k (replicate n1 nan) |}.

(** The locals of the method once the frames [done] are converted and [k]
    frames are still to come. *)
Definition locals_after (w h : float) (done : list MediapipeResults) (k : nat)
    : ConversionLocals :=
  let nb := length body_names_list in
  let nr := length right_hand_names_list in
  let nl := length left_hand_names_list in
  let nf := FACEMESH_NUM_LANDMARKS_WITH_IRISES in
  {| arrays :=
       {| body2d_frameNumber_trackedPointNumber_XY :=
            blocks_after nb w h pose_landmarks done k;
          rightHand2d_frameNumber_trackedPointNumber_XY :=
            blocks_after nr w h right_hand_landmarks done k;
          leftHand2d_frameNumber_trackedPointNumber_XY :=
            blocks_after nl w h left_hand_landmarks done k;
          face2d_frameNumber_trackedPointNumber_XY :=
            blocks_after nf w h face_landmarks done k;
          body2d_frameNumber_trackedPointNumber_confidence :=
            confidence_after nb done k |};
     all_body_tracked_points_visible_on_this_frame_bool_list :=
       (fun r => no_nan (part_block nb w h (pose_landmarks r))) <$> done;
     all_right_hand_points_visible_on_this_frame_bool_list :=
       (fun r => no_nan (part_block nr w h (right_hand_landmarks r))) <$> done;
     all_left_hand_points_visible_on_this_frame_bool_list :=
       (fun r => no_nan (part_block nl w h (left_hand_landmarks r))) <$> done;
     all_face_points_visible_on_this_frame_bool_list :=
       (fun r => no_nan (part_block nf w h (face_landmarks r))) <$> done;
     all_tracked_points_visible_on_this_frame_list :=
       (fun r =>
          no_nan (part_block nb w h (pose_landmarks r))
          && (no_nan (part_block nr w h (right_hand_landmarks r))
              && (no_nan (part_block nl w h (left_hand_landmarks r))
                  && (no_nan (part_block nf w h (face_landmarks r)) && true))))
       <$> done |}.

(** The catalogue names at least one point for every part. *)
Definition catalogue_nonempty : Prop :=
  0 < length body_names_list /\ 0 < length right_hand_names_list
  /\ 0 < length left_hand_names_list /\ 0 < FACEMESH_NUM_LANDMARKS_WITH_IRISES.

Inductive Part : Type := Body | RightHand | LeftHand | Face.

Definition part_landmarks (part : Part) (r : MediapipeResults)
    : option NormalizedLandmarkList :=
  match part with
  | Body => pose_landmarks r
  | RightHand => right_hand_landmarks r
  | LeftHand => left_hand_landmarks r
  | Face => face_landmarks r
  end.

Definition part_XY (part : Part) (m : Mediapipe2dSingleCameraNpyArrays) : ndarray3 :=
  match part with
  | Body => body2d_frameNumber_trackedPointNumber_XY m
  | RightHand => rightHand2d_frameNumber_trackedPointNumber_XY m
  | LeftHand => leftHand2d_frameNumber_trackedPointNumber_XY m
  | Face => face2d_frameNumber_trackedPointNumber_XY m
  end.

Definition part_points (part : Part) : nat :=
  match part with
  | Body => length body_names_list
  | RightHand => length right_hand_names_list
  | LeftHand => length left_hand_names_list
  | Face => FACEMESH_NUM_LANDMARKS_WITH_IRISES
  end.

Definition part_visible_list (part : Part) (st : ConversionLocals) : list bool :=
  match part with
  | Body => all_body_tracked_points_visible_on_this_frame_bool_list st
  | RightHand => all_right_hand_points_visible_on_this_frame_bool_list st
  | LeftHand => all_left_hand_points_visible_on_this_frame_bool_list st
  | Face => all_face_points_visible_on_this_frame_bool_list st
  end.

(** The cell [a[f, p, k]]. *)
Definition getitem_cell (a : ndarray3) (f p k : nat) : option float :=
  match cells3 a !! f with
  | Some block =>
      match block !! p with
      | Some point => point !! k
      | None => None
      end
  | None => None
  end.

Definition is_npy (e : Event) : bool :=
  match e with
  | SavedNpy _ _ => true
  | _ => false
  end.

(** [w'] comes after [w] and no array was persisted in between. *)
Definition no_npy_between (w w' : World) : Prop :=
  exists evs, events w' = events w ++ evs /\ forallb (fun e => negb (is_npy e)) evs = true.

(** A computation that persists no array, however it ends. *)
Definition quiet {A} (c : M A) : Prop :=
  forall w r w', c w = (r, w') -> no_npy_between w w'.

(** The first [read] of a video gives no image. *)
Definition first_frame_undecodable (v : VideoFile) : bool :=
  let '((success, image), _) := VideoCapture_read (frames v) in
  negb success || is_None image.

(** What [read] returns for a frame that was decoded. *)
Definition decoded (image : Image) : bool * option Image := (true, Some image).

(** A [read] that failed or gave no image. *)
Definition undecodable (r : bool * option Image) : bool := negb r.1 || is_None r.2.

(** The drawing utilities never raise. *)
Definition drawing_total : Prop :=
  forall image l c, exists image', draw_landmarks image l c = Ok image'.

(** The video recorder never raises. *)
Definition recorder_total : Prop :=
  forall recorder images frame_rate,
    save_image_list_to_disk recorder images frame_rate = None.

(** The world once a video is opened. *)
Definition opened (v : VideoFile) (w : World) : World :=
  {| tracker := tracker w; events := events w ++ [OpenedVideo (file_name v)] |}.

(** The recorder that [save_annotated_videos] builds for a video. *)
Definition recorder_of (v : VideoFile) : VideoRecorder :=
  {| recorder_video_name := Path_stem (file_name v) +:+ "_mediapipe" +:+ "." +:+ "mp4";
     recorder_image_width := CAP_PROP_FRAME_WIDTH v;
     recorder_image_height := CAP_PROP_FRAME_HEIGHT v;
     recorder_session_id := _session_id;
     mediapipe_annotated_video_bool := true |}.

(** What follows the read loop in the body of the loop over the videos. *)
Definition after_read_loop (flag : bool) (v : VideoFile)
    (lists : list MediapipeResults * list Image)
    : M Mediapipe2dSingleCameraNpyArrays :=
  do! _ :=
    if flag
    then save_annotated_videos lists.2 (Path_stem (file_name v))
           (CAP_PROP_FRAME_WIDTH v) (CAP_PROP_FRAME_HEIGHT v)
    else ret tt in
  liftR (_list_of_mediapipe_results_to_npy_arrays lists.1
           (CAP_PROP_FRAME_WIDTH v) (CAP_PROP_FRAME_HEIGHT v)).

(** The video as it would be if the stream ended after [images]. *)
Definition end_of_stream_after (v : VideoFile) (images : list Image) : VideoFile :=
  {| file_name := file_name v;
     CAP_PROP_FRAME_WIDTH := CAP_PROP_FRAME_WIDTH v;
     CAP_PROP_FRAME_HEIGHT := CAP_PROP_FRAME_HEIGHT v;
     frames := decoded <$> images |}.

(** The shape of [a] can be broadcast to [(n0, n1, n2)]. *)
Definition fits (n0 n1 n2 : nat) (a : ndarray3) : bool :=
  let '(m0, m1, m2) := shape3 a in
  broadcastable m0 n0 && broadcastable m1 n1 && broadcastable m2 n2.

(** The cells of [a] broadcast to the shape [(n0, n1, n2)]. *)
Definition broadcast_to (n0 n1 n2 : nat) (a : ndarray3) : list (list (list float)) :=
  let '(m0, m1, m2) := shape3 a in
  broadcast_axis m0 n0
    (map (fun frame => broadcast_axis m1 n1 (map (broadcast_axis m2 n2) frame))
       (cells3 a)).

Definition shape_list (a : ndarray3) : list nat :=
  let '(m0, m1, m2) := shape3 a in [m0; m1; m2].

Definition points_total : nat :=
  length body_names_list + length right_hand_names_list
  + length left_hand_names_list + FACEMESH_NUM_LANDMARKS_WITH_IRISES.

(** The points of one frame along the point axis: body, right hand, left
    hand, face. *)
Definition stacked_block (w h : float) (r : MediapipeResults) : list (list float) :=
  part_block (length body_names_list) w h (pose_landmarks r)
  ++ part_block (length right_hand_names_list) w h (right_hand_landmarks r)
  ++ part_block (length left_hand_names_list) w h (left_hand_landmarks r)
  ++ part_block FACEMESH_NUM_LANDMARKS_WITH_IRISES w h (face_landmarks r).

Definition stacked_after (w h : float) (rs : list MediapipeResults) : ndarray3 :=
  {| shape3 := (length rs, points_total, 2);
     cells3 := stacked_block w h <$> rs |}.

(** The number of frames of a camera's arrays. *)
Definition frames_of (m : Mediapipe2dSingleCameraNpyArrays) : nat :=
  (shape3 (body2d_frameNumber_trackedPointNumber_XY m)).1.1.

(** What a camera's arrays and its array of all points are like after a
    video was processed. *)
Definition camera_of (m : Mediapipe2dSingleCameraNpyArrays) (a : ndarray3) : Prop :=
  exists w h rs, m = arrays (locals_after w h rs 0) /\ a = stacked_after w h rs.

(** The images of a stream up to the first [read] that gives none. *)
Fixpoint decoded_prefix (capture : list (bool * option Image)) : list Image :=
  match capture with
  | (true, Some image) :: capture' => image :: decoded_prefix capture'
  | _ => []
  end.

(** The tracker run over images one after the other, from state [t]. *)
Fixpoint track (t : Tracker) (images : list Image) : list MediapipeResults * Tracker :=
  match images with
  | [] => ([], t)
  | image :: images' =>
      let '(r, t') := holistic_process t image in
      let '(rs, t'') := track t' images' in
      (r :: rs, t'')
  end.

(** What processing a video writes when it ends without an exception. *)
Definition video_events (flag : bool) (v : VideoFile) (images : list Image)
    : list Event :=
  OpenedVideo (file_name v)
  :: (if flag then [SavedAnnotatedVideo (recorder_of v) images 30] else []).

(** Two outcomes with the same result and the same state of the tracker. *)
Definition same_outcome {A} (o1 o2 : result A * World) : Prop :=
  o1.1 = o2.1 /\ tracker o1.2 = tracker o2.2.

(** Two computations that differ at most in what they write. *)
Definition same_but_events {A} (c1 c2 : M A) : Prop :=
  forall w1 w2, tracker w1 = tracker w2 -> same_outcome (c1 w1) (c2 w2).

(** * Properties *)

(** ** Loops *)

Lemma for_each_app {St A} (body : St -> A -> result St) (l1 l2 : list A) (s : St) :
  for_each body (l1 ++ l2) s
  = let! s' := for_each body l1 s in for_each body l2 s'.
Proof.
  revert s; induction l1 as [|a l1 IH]; intros s; simpl; [reflexivity|].
  destruct (body s a); simpl; auto.
Qed.

(** ** Well-shaped arrays *)

Lemma wf_block_replicate (n1 n2 : nat) (point : list float) :
  length point = n2 -> wf_block n1 n2 (replicate n1 point).
Proof.
  intros H; split; [apply length_replicate|].
  apply Forall_replicate; exact H.
Qed.

Lemma wf3_np_nan3 (n0 n1 n2 : nat) : wf3 (np_nan3 n0 n1 n2).
Proof.
  split; simpl; [apply length_replicate|].
  apply Forall_replicate, wf_block_replicate, length_replicate.
Qed.

Lemma wf2_np_nan2 (n0 n1 : nat) : wf2 (np_nan2 n0 n1).
Proof.
  split; simpl; [apply length_replicate|].
  apply Forall_replicate, length_replicate.
Qed.

Lemma wf3_insert (a : ndarray3) (f : nat) (block : list (list float)) :
  wf3 a -> wf_block (shape3 a).1.2 (shape3 a).2 block ->
  wf3 {| shape3 := shape3 a; cells3 := <[f := block]> (cells3 a) |}.
Proof.
  intros [Hl Hf] Hb; split; simpl.
  - rewrite length_insert; exact Hl.
  - apply Forall_insert; assumption.
Qed.

Lemma wf2_insert (a : ndarray2) (f : nat) (row : list float) :
  wf2 a -> length row = (shape2 a).2 ->
  wf2 {| shape2 := shape2 a; cells2 := <[f := row]> (cells2 a) |}.
Proof.
  intros [Hl Hf] Hb; split; simpl.
  - rewrite length_insert; exact Hl.
  - apply Forall_insert; assumption.
Qed.

(** Overwriting both coordinates of every point of a frame leaves a constant
    block. *)
Lemma overwrite_points (n1 : nat) (block : list (list float)) (u v : float) :
  wf_block n1 2 block ->
  (fun point => <[1 := v]> point) <$> ((fun point => <[0 := u]> point) <$> block)
  = replicate n1 [u; v].
Proof.
  intros [Hl Hf]; subst n1.
  induction Hf as [|point block Hp _ IH]; simpl; [reflexivity|].
  f_equal; [|exact IH].
  destruct point as [|p [|q [|? ?]]]; simpl in Hp; try discriminate; reflexivity.
Qed.

Lemma alter_as_insert {A} (g : A -> A) (i : nat) (l : list A) (a : A) :
  l !! i = Some a -> alter g i l = <[i := g a]> l.
Proof.
  intros H; apply list_eq; intros j.
  destruct (decide (j = i)) as [->|Hne].
  - rewrite list_lookup_alter_eq, H; simpl.
    rewrite list_lookup_insert_eq; [reflexivity|].
    apply lookup_lt_is_Some; rewrite H; eauto.
  - rewrite list_lookup_alter_ne, list_lookup_insert_ne by congruence; reflexivity.
Qed.

Lemma write_landmark_XY_spec (a : ndarray3) (f : nat) (w h : float)
    (lm : Landmark) (n0 n1 : nat) :
  shape3 a = (n0, n1, 2) -> wf3 a -> f < n0 ->
  write_landmark_XY f w h a lm
  = Ok {| shape3 := shape3 a;
          cells3 := <[f := replicate n1 [(x lm * w)%float; (y lm * h)%float]]> (cells3 a) |}.
Proof.
  intros Hs [Hl Hf] Hlt.
  unfold write_landmark_XY, setitem_column; rewrite Hs in *; simpl in *.
  destruct (Nat.ltb_spec f n0) as [_|?]; [simpl|lia].
  destruct (Nat.ltb_spec f n0) as [_|?]; [simpl|lia].
  destruct (lookup_lt_is_Some_2 (cells3 a) f) as [block Hb]; [lia|].
  do 2 f_equal.
  rewrite (alter_as_insert _ _ _ _ Hb).
  erewrite alter_as_insert by (apply list_lookup_insert_eq; lia).
  rewrite list_insert_insert_eq.
  f_equal. apply overwrite_points.
  eapply Forall_lookup_1 in Hf; [|exact Hb]. exact Hf.
Qed.

(** A loop over the landmarks of a hand or of the face leaves, in its frame,
    the block of the last landmark; without landmarks it changes nothing. *)
Lemma landmarks_loop_spec (lms : list Landmark) (a : ndarray3) (f : nat)
    (w h : float) (n0 n1 : nat) :
  shape3 a = (n0, n1, 2) -> wf3 a -> f < n0 ->
  for_each (write_landmark_XY f w h) lms a
  = Ok match last lms with
       | Some lm =>
           {| shape3 := shape3 a;
              cells3 := <[f := replicate n1 (pixel_XY w h lm)]> (cells3 a) |}
       | None => a
       end.
Proof.
  revert a; induction lms as [|lm rest IH]; intros a Hs Hwf Hlt; [reflexivity|].
  cbn [for_each]. rewrite (write_landmark_XY_spec a f w h lm n0 n1) by assumption.
  cbn [bindR]. rewrite IH; [|exact Hs| |exact Hlt].
  - destruct rest as [|lm' rest']; [reflexivity|].
    change (last (lm :: lm' :: rest')) with (last (lm' :: rest')).
    destruct (last (lm' :: rest')) as [lm2|] eqn:E;
      [|apply last_None in E; discriminate].
    cbn [shape3 cells3]. rewrite list_insert_insert_eq. reflexivity.
  - apply wf3_insert; [exact Hwf|]. rewrite Hs; simpl.
    apply wf_block_replicate; reflexivity.
Qed.

Lemma const_fmap_replicate {A B} (v : B) (l : list A) :
  (fun _ => v) <$> l = replicate (length l) v.
Proof. induction l as [|a l IH]; simpl; [reflexivity|]. f_equal; exact IH. Qed.

Lemma setitem_row_spec (c : ndarray2) (f : nat) (v : float) (n0 n1 : nat) :
  shape2 c = (n0, n1) -> wf2 c -> f < n0 ->
  setitem_row c f v
  = Ok {| shape2 := shape2 c; cells2 := <[f := replicate n1 v]> (cells2 c) |}.
Proof.
  intros Hs [Hl Hf] Hlt.
  unfold setitem_row; rewrite Hs in *; simpl in *.
  destruct (Nat.ltb_spec f n0) as [_|?]; [|lia].
  destruct (lookup_lt_is_Some_2 (cells2 c) f) as [row Hr]; [lia|].
  do 2 f_equal.
  rewrite (alter_as_insert _ _ _ _ Hr), const_fmap_replicate.
  eapply Forall_lookup_1 in Hf; [|exact Hr]. simpl in Hf. rewrite Hf. reflexivity.
Qed.

(** The loop over the landmarks of the body does the same and also leaves
    the visibility of the last landmark in every entry of the confidence
    row. *)
Lemma body_loop_spec (lms : list Landmark) (a : ndarray3) (c : ndarray2)
    (f : nat) (w h : float) (n0 n1 : nat) :
  shape3 a = (n0, n1, 2) -> wf3 a -> shape2 c = (n0, n1) -> wf2 c -> f < n0 ->
  for_each (write_body_landmark f w h) lms (a, c)
  = Ok match last lms with
       | Some lm =>
           ({| shape3 := shape3 a;
               cells3 := <[f := replicate n1 (pixel_XY w h lm)]> (cells3 a) |},
            {| shape2 := shape2 c;
               cells2 := <[f := replicate n1 (visibility lm)]> (cells2 c) |})
       | None => (a, c)
       end.
Proof.
  revert a c; induction lms as [|lm rest IH]; intros a c Hs Hwf Hs2 Hwf2 Hlt;
    [reflexivity|].
  cbn [for_each]. unfold write_body_landmark at 1. cbn [fst snd].
  rewrite (write_landmark_XY_spec a f w h lm n0 n1) by assumption.
  cbn [bindR]. rewrite (setitem_row_spec c f _ n0 n1) by assumption.
  cbn [bindR]. rewrite IH; [|exact Hs| |exact Hs2| |exact Hlt].
  - destruct rest as [|lm' rest']; [reflexivity|].
    change (last (lm :: lm' :: rest')) with (last (lm' :: rest')).
    destruct (last (lm' :: rest')) as [lm2|] eqn:E;
      [|apply last_None in E; discriminate].
    cbn [shape3 cells3 shape2 cells2]. rewrite !list_insert_insert_eq. reflexivity.
  - apply wf3_insert; [exact Hwf|]. rewrite Hs; simpl.
    apply wf_block_replicate; reflexivity.
  - apply wf2_insert; [exact Hwf2|]. rewrite Hs2; simpl. apply length_replicate.
Qed.

(** ** The visibility test *)

Lemma counts_step (counts : list Z) (row : list bool) :
  length row = length counts -> Forall (fun n => (0 <= n)%Z) counts ->
  forallb id ((fun n => (n =? 0)%Z) <$> zip_with Z.add counts (Z.b2z <$> row))
  = forallb id ((fun n => (n =? 0)%Z) <$> counts) && forallb negb row.
Proof.
  intros Hl Hc; revert row Hl.
  induction Hc as [|n counts Hn _ IH]; intros [|b row] Hl; simpl in Hl;
    try discriminate; [reflexivity|].
  injection Hl as Hl.
  cbn [fmap list_fmap zip_with forallb id negb]. rewrite (IH row Hl).
  destruct b; cbn [Z.b2z].
  - rewrite (proj2 (Z.eqb_neq (n + 1) 0)) by lia.
    rewrite andb_false_r. reflexivity.
  - rewrite Z.add_0_r.
    destruct (n =? 0)%Z; reflexivity.
Qed.

Lemma counts_nonneg (counts : list Z) (row : list bool) :
  Forall (fun n => (0 <= n)%Z) counts ->
  Forall (fun n => (0 <= n)%Z) (zip_with Z.add counts (Z.b2z <$> row)).
Proof.
  intros Hc; revert row.
  induction Hc as [|n counts Hn _ IH]; intros [|b row]; simpl; constructor.
  - destruct b; simpl; lia.
  - apply IH.
Qed.

Lemma py_sum_rows (rows : list (list bool)) (counts : list Z) :
  Forall (fun row => length row = length counts) rows ->
  Forall (fun n => (0 <= n)%Z) counts ->
  py_all (py_eq_zero (fold_left py_add rows (PyIntArray counts)))
  = Ok (forallb id ((fun n => (n =? 0)%Z) <$> counts)
        && forallb (forallb negb) rows).
Proof.
  intros Hr; revert counts Hr.
  induction rows as [|row rows IH]; intros counts Hr Hc.
  - simpl. rewrite andb_true_r. reflexivity.
  - inversion Hr as [|? ? Hrow Hrows]; subst.
    cbn [fold_left py_add]. rewrite IH.
    + change (map Z.b2z row) with (Z.b2z <$> row).
      rewrite counts_step by assumption.
      cbn [forallb]. rewrite andb_assoc. reflexivity.
    + rewrite length_zip_with, length_fmap, Hrow, Nat.min_id.
      eapply Forall_impl; [exact Hrows|]. intros r Hlen; simpl in Hlen. congruence.
    + apply counts_nonneg; exact Hc.
Qed.

Lemma forallb_isnan (row : list float) :
  forallb negb (map PrimFloat.is_nan row)
  = forallb (fun v => negb (PrimFloat.is_nan v)) row.
Proof. induction row as [|v row IH]; simpl; [reflexivity|]. rewrite IH; reflexivity. Qed.

(** On a block with at least one point, [all(sum(np.isnan(block)) == 0)] is a
    boolean: whether no cell of the block is NaN. *)
Lemma all_sum_isnan_eq_zero_spec (n1 n2 : nat) (block : list (list float)) :
  0 < n1 -> wf_block n1 n2 block ->
  all_sum_isnan_eq_zero block = Ok (no_nan block).
Proof.
  intros Hpos [Hl Hf].
  destruct block as [|row rows]; [simpl in Hl; lia|].
  inversion Hf as [|? ? Hrow Hrows]; subst.
  unfold all_sum_isnan_eq_zero, py_sum, np_isnan.
  cbn [map fold_left py_add].
  rewrite py_sum_rows.
  - f_equal. unfold no_nan. cbn [forallb]. f_equal.
    + rewrite <- forallb_isnan.
      generalize (map PrimFloat.is_nan row) as bs.
      induction bs as [|b bs IH]; [reflexivity|].
      cbn. rewrite IH. destruct b; reflexivity.
    + clear. induction rows as [|r rows IH]; [reflexivity|].
      cbn [map forallb]. rewrite forallb_isnan, IH. reflexivity.
  - rewrite !length_map.
    rewrite Forall_forall. intros r Hr.
    apply list_elem_of_In, in_map_iff in Hr as (r0 & <- & Hin).
    rewrite length_map.
    rewrite Forall_forall in Hrows. apply Hrows, list_elem_of_In, Hin.
  - apply Forall_forall. intros n Hn.
    apply list_elem_of_In, in_map_iff in Hn as (b & <- & _).
    destruct b; simpl; lia.
Qed.

(** ** The frame loop in closed form *)

Lemma wf_block_part_block (n1 : nat) (w h : float) (l : option NormalizedLandmarkList) :
  wf_block n1 2 (part_block n1 w h l).
Proof.
  unfold part_block.
  destruct l as [l|]; [destruct (last (landmark l))|];
    apply wf_block_replicate; reflexivity.
Qed.

Lemma length_confidence_row (n1 : nat) (l : option NormalizedLandmarkList) :
  length (confidence_row n1 l) = n1.
Proof.
  unfold confidence_row.
  destruct l as [l|]; [destruct (last (landmark l))|]; apply length_replicate.
Qed.

Lemma wf3_blocks_after n1 w h part done k : wf3 (blocks_after n1 w h part done k).
Proof.
  split; cbn [blocks_after shape3 cells3 fst snd].
  - rewrite length_app, length_fmap, length_replicate. reflexivity.
  - apply Forall_app; split.
    + apply Forall_fmap, Forall_forall. intros r _. apply wf_block_part_block.
    + apply Forall_replicate, wf_block_replicate. reflexivity.
Qed.

Lemma wf2_confidence_after n1 done k : wf2 (confidence_after n1 done k).
Proof.
  split; cbn [confidence_after shape2 cells2 fst snd].
  - rewrite length_app, length_fmap, length_replicate. reflexivity.
  - apply Forall_app; split.
    + apply Forall_fmap, Forall_forall. intros r _. apply length_confidence_row.
    + apply Forall_replicate, length_replicate.
Qed.

Lemma insert_next {A B} (g : A -> B) (done : list A) (k : nat) (r : A) (b0 b : B) :
  <[length done := b]> ((g <$> done) ++ replicate (S k) b0)
  = (g <$> done) ++ b :: replicate k b0.
Proof.
  rewrite insert_app_r_alt by (rewrite length_fmap; lia).
  rewrite length_fmap, Nat.sub_diag. reflexivity.
Qed.

Lemma blocks_after_next n1 w h part done k r :
  blocks_after n1 w h part (done ++ [r]) k
  = {| shape3 := (length done + S k, n1, 2);
       cells3 := ((fun r => part_block n1 w h (part r)) <$> done)
                 ++ part_block n1 w h (part r)
                    :: replicate k (replicate n1 (replicate 2 nan)) |}.
Proof.
  unfold blocks_after. rewrite fmap_app, <- app_assoc, length_app. simpl.
  do 3 f_equal. lia.
Qed.

Lemma confidence_after_next n1 done k r :
  confidence_after n1 (done ++ [r]) k
  = {| shape2 := (length done + S k, n1);
       cells2 := ((fun r => confidence_row n1 (pose_landmarks r)) <$> done)
                 ++ confidence_row n1 (pose_landmarks r)
                    :: replicate k (replicate n1 nan) |}.
Proof.
  unfold confidence_after. rewrite fmap_app, <- app_assoc, length_app. simpl.
  do 2 f_equal. lia.
Qed.

(** One frame of a hand or of the face. *)
Lemma part_frame_step n1 w h part done k r :
  match part r with
  | Some l =>
      for_each (write_landmark_XY (length done) w h) (landmark l)
        (blocks_after n1 w h part done (S k))
  | None => Ok (blocks_after n1 w h part done (S k))
  end
  = Ok (blocks_after n1 w h part (done ++ [r]) k).
Proof.
  rewrite blocks_after_next. unfold part_block.
  destruct (part r) as [l|]; [|reflexivity].
  rewrite (landmarks_loop_spec _ _ _ _ _ (length done + S k) n1);
    [|reflexivity|apply wf3_blocks_after|lia].
  destruct (last (landmark l)) as [lm|]; [|reflexivity].
  cbn [blocks_after shape3 cells3]. rewrite insert_next by exact r. reflexivity.
Qed.

(** One frame of the body. *)
Lemma body_frame_step n1 w h done k r :
  match pose_landmarks r with
  | Some l =>
      for_each (write_body_landmark (length done) w h) (landmark l)
        (blocks_after n1 w h pose_landmarks done (S k),
         confidence_after n1 done (S k))
  | None =>
      Ok (blocks_after n1 w h pose_landmarks done (S k),
          confidence_after n1 done (S k))
  end
  = Ok (blocks_after n1 w h pose_landmarks (done ++ [r]) k,
        confidence_after n1 (done ++ [r]) k).
Proof.
  rewrite blocks_after_next, confidence_after_next. unfold part_block, confidence_row.
  destruct (pose_landmarks r) as [l|]; [|reflexivity].
  rewrite (body_loop_spec _ _ _ _ _ _ (length done + S k) n1);
    [|reflexivity|apply wf3_blocks_after|reflexivity|apply wf2_confidence_after|lia].
  destruct (last (landmark l)) as [lm|]; [|reflexivity].
  cbn [blocks_after confidence_after shape3 cells3 shape2 cells2].
  rewrite !insert_next by exact r. reflexivity.
Qed.

Lemma getitem_frame_next n1 w h part done k r :
  getitem_frame (blocks_after n1 w h part (done ++ [r]) k) (length done)
  = Ok (part_block n1 w h (part r)).
Proof.
  rewrite blocks_after_next. unfold getitem_frame. cbn [cells3].
  rewrite lookup_app_r by (rewrite length_fmap; lia).
  rewrite length_fmap, Nat.sub_diag. reflexivity.
Qed.

Lemma convert_frame_step w h done k r :
  catalogue_nonempty ->
  convert_frame w h (locals_after w h done (S k)) (length done) r
  = Ok (locals_after w h (done ++ [r]) k).
Proof.
  intros (Hb & Hr & Hl & Hf).
  unfold convert_frame.
  cbn [locals_after arrays body2d_frameNumber_trackedPointNumber_XY
       rightHand2d_frameNumber_trackedPointNumber_XY
       leftHand2d_frameNumber_trackedPointNumber_XY
       face2d_frameNumber_trackedPointNumber_XY
       body2d_frameNumber_trackedPointNumber_confidence
       all_body_tracked_points_visible_on_this_frame_bool_list
       all_right_hand_points_visible_on_this_frame_bool_list
       all_left_hand_points_visible_on_this_frame_bool_list
       all_face_points_visible_on_this_frame_bool_list
       all_tracked_points_visible_on_this_frame_list].
  rewrite body_frame_step. cbn [bindR fst snd].
  rewrite (part_frame_step _ w h right_hand_landmarks). cbn [bindR].
  rewrite (part_frame_step _ w h left_hand_landmarks). cbn [bindR].
  rewrite (part_frame_step _ w h face_landmarks). cbn [bindR].
  rewrite !getitem_frame_next. cbn [bindR].
  rewrite (all_sum_isnan_eq_zero_spec (length body_names_list) 2)
    by (assumption || apply wf_block_part_block).
  cbn [bindR].
  rewrite (all_sum_isnan_eq_zero_spec (length right_hand_names_list) 2)
    by (assumption || apply wf_block_part_block).
  cbn [bindR].
  rewrite (all_sum_isnan_eq_zero_spec (length left_hand_names_list) 2)
    by (assumption || apply wf_block_part_block).
  cbn [bindR].
  rewrite (all_sum_isnan_eq_zero_spec FACEMESH_NUM_LANDMARKS_WITH_IRISES 2)
    by (assumption || apply wf_block_part_block).
  cbn [bindR].
  unfold locals_after. rewrite !fmap_app. reflexivity.
Qed.

Lemma conversion_loop w h todo done :
  catalogue_nonempty ->
  for_enumerate (convert_frame w h) (length done) todo
    (locals_after w h done (length todo))
  = Ok (locals_after w h (done ++ todo) 0).
Proof.
  intros Hc; revert done.
  induction todo as [|r todo IH]; intros done.
  - rewrite app_nil_r. reflexivity.
  - cbn [for_enumerate length]. rewrite convert_frame_step by exact Hc.
    cbn [bindR].
    replace (S (length done)) with (length (done ++ [r]))
      by (rewrite length_app; simpl; lia).
    rewrite IH, <- app_assoc. reflexivity.
Qed.

(** The frame loop never raises when every part has a point, and its
    outcome is the closed form. *)
Lemma conversion_locals_spec (rs : list MediapipeResults) (w h : float) :
  catalogue_nonempty ->
  conversion_locals rs w h = Ok (locals_after w h rs 0).
Proof.
  intros Hc. unfold conversion_locals.
  exact (conversion_loop w h rs [] Hc).
Qed.

(** ** The four parts *)

Lemma part_XY_locals_after part w h done :
  part_XY part (arrays (locals_after w h done 0))
  = blocks_after (part_points part) w h (part_landmarks part) done 0.
Proof. destruct part; reflexivity. Qed.

Lemma part_visible_locals_after part w h done :
  part_visible_list part (locals_after w h done 0)
  = (fun r => no_nan (part_block (part_points part) w h (part_landmarks part r)))
      <$> done.
Proof. destruct part; reflexivity. Qed.

Lemma blocks_after_lookup n1 w h part rs f r :
  rs !! f = Some r ->
  cells3 (blocks_after n1 w h part rs 0) !! f = Some (part_block n1 w h (part r)).
Proof.
  intros H. cbn [blocks_after cells3]. rewrite app_nil_r, list_lookup_fmap, H.
  reflexivity.
Qed.

Lemma confidence_after_lookup n1 rs f r :
  rs !! f = Some r ->
  cells2 (confidence_after n1 rs 0) !! f = Some (confidence_row n1 (pose_landmarks r)).
Proof.
  intros H. cbn [confidence_after cells2]. rewrite app_nil_r, list_lookup_fmap, H.
  reflexivity.
Qed.

Lemma no_nan_true (block : list (list float)) :
  no_nan block = true
  <-> forall p point k v,
        block !! p = Some point -> point !! k = Some v -> PrimFloat.is_nan v = false.
Proof.
  unfold no_nan. rewrite forallb_forall. split.
  - intros H p point k v Hp Hk.
    specialize (H point). rewrite forallb_forall in H.
    apply negb_true_iff, H.
    + eapply list_elem_of_In, list_elem_of_lookup_2; exact Hp.
    + eapply list_elem_of_In, list_elem_of_lookup_2; exact Hk.
  - intros H point Hin. apply forallb_forall. intros v Hv.
    apply list_elem_of_In, list_elem_of_lookup_1 in Hin as [p Hp].
    apply list_elem_of_In, list_elem_of_lookup_1 in Hv as [k Hk].
    apply negb_true_iff. exact (H p point k v Hp Hk).
Qed.

(** ** What the conversion guarantees *)

(** C1: in a frame where a part is present with at least one landmark, the
    block of that part is constant: each of its points holds the last
    landmark's [(x * image_width, y * image_height)]; for the body, every
    entry of the frame's confidence row is the last landmark's visibility. *)
Theorem last_landmark_fills_block
    (rs : list MediapipeResults) (w h : float) (part : Part) (f : nat)
    (r : MediapipeResults) (l : NormalizedLandmarkList) (lm : Landmark) :
  catalogue_nonempty ->
  rs !! f = Some r ->
  part_landmarks part r = Some l ->
  last (landmark l) = Some lm ->
  exists out,
    _list_of_mediapipe_results_to_npy_arrays rs w h = Ok out
    /\ cells3 (part_XY part out) !! f
       = Some (replicate (part_points part) [(x lm * w)%float; (y lm * h)%float])
    /\ (part = Body ->
        cells2 (body2d_frameNumber_trackedPointNumber_confidence out) !! f
        = Some (replicate (length body_names_list) (visibility lm))).
Proof.
  intros Hc Hf Hl Hlast.
  exists (arrays (locals_after w h rs 0)). split; [|split].
  - unfold _list_of_mediapipe_results_to_npy_arrays.
    rewrite conversion_locals_spec by exact Hc. reflexivity.
  - rewrite part_XY_locals_after, (blocks_after_lookup _ _ _ _ _ _ _ Hf).
    unfold part_block. rewrite Hl, Hlast. reflexivity.
  - intros ->. simpl in Hl.
    cbn [locals_after arrays body2d_frameNumber_trackedPointNumber_confidence].
    rewrite (confidence_after_lookup _ _ _ _ Hf).
    unfold confidence_row. rewrite Hl, Hlast. reflexivity.
Qed.

(** C3: in a frame where a part is absent, every cell of the block of that
    part is NaN, and so is every entry of the confidence row when the part is
    the body; the conversion returns its arrays without raising. *)
Theorem absent_part_stays_nan
    (rs : list MediapipeResults) (w h : float) (part : Part) (f : nat)
    (r : MediapipeResults) :
  catalogue_nonempty ->
  rs !! f = Some r ->
  part_landmarks part r = None ->
  exists out,
    _list_of_mediapipe_results_to_npy_arrays rs w h = Ok out
    /\ cells3 (part_XY part out) !! f
       = Some (replicate (part_points part) [nan; nan])
    /\ (part = Body ->
        cells2 (body2d_frameNumber_trackedPointNumber_confidence out) !! f
        = Some (replicate (length body_names_list) nan)).
Proof.
  intros Hc Hf Hl.
  exists (arrays (locals_after w h rs 0)). split; [|split].
  - unfold _list_of_mediapipe_results_to_npy_arrays.
    rewrite conversion_locals_spec by exact Hc. reflexivity.
  - rewrite part_XY_locals_after, (blocks_after_lookup _ _ _ _ _ _ _ Hf).
    unfold part_block. rewrite Hl. reflexivity.
  - intros ->. simpl in Hl.
    cbn [locals_after arrays body2d_frameNumber_trackedPointNumber_confidence].
    rewrite (confidence_after_lookup _ _ _ _ Hf).
    unfold confidence_row. rewrite Hl. reflexivity.
Qed.

(** C4: the frame loop ends with one flag per frame and part, which is true
    exactly when no cell of the part's block for that frame is NaN, and with
    one overall flag per frame, the conjunction of the four. *)
Theorem visibility_flags
    (rs : list MediapipeResults) (w h : float) (f : nat) :
  catalogue_nonempty ->
  f < length rs ->
  exists st visible,
    conversion_locals rs w h = Ok st
    /\ (forall part,
          part_visible_list part st !! f = Some (visible part)
          /\ (visible part = true
              <-> forall p k v,
                    getitem_cell (part_XY part (arrays st)) f p k = Some v ->
                    PrimFloat.is_nan v = false))
    /\ all_tracked_points_visible_on_this_frame_list st !! f
       = Some (visible Body && visible RightHand && visible LeftHand && visible Face).
Proof.
  intros Hc Hf.
  destruct (lookup_lt_is_Some_2 rs f Hf) as [r Hr].
  exists (locals_after w h rs 0),
    (fun part => no_nan (part_block (part_points part) w h (part_landmarks part r))).
  split; [apply conversion_locals_spec; exact Hc|]. split.
  - intros part. split.
    + rewrite part_visible_locals_after, list_lookup_fmap, Hr. reflexivity.
    + rewrite no_nan_true. unfold getitem_cell.
      rewrite part_XY_locals_after, (blocks_after_lookup _ _ _ _ _ _ _ Hr).
      split.
      * intros H p k v Hv.
        destruct (part_block (part_points part) w h (part_landmarks part r) !! p)
          as [point|] eqn:Hp; [|discriminate].
        exact (H p point k v Hp Hv).
      * intros H p point k v Hp Hk. apply (H p k v). rewrite Hp. exact Hk.
  - cbn [locals_after all_tracked_points_visible_on_this_frame_list].
    rewrite list_lookup_fmap, Hr. cbn [fmap option_fmap option_map part_points part_landmarks].
    f_equal. rewrite andb_true_r, !andb_assoc. reflexivity.
Qed.

(** X1: with a catalogue that names no body point the first frame already
    raises: [sum] over the empty block is the integer 0, the comparison is a
    plain [bool], and [all] cannot iterate over it. *)
Theorem empty_body_catalogue_raises_TypeError
    (r : MediapipeResults) (rest : list MediapipeResults) (w h : float) :
  body_names_list = [] ->
  _list_of_mediapipe_results_to_npy_arrays (r :: rest) w h = Raise TypeError.
Proof.
  intros Hb.
  unfold _list_of_mediapipe_results_to_npy_arrays, conversion_locals.
  cbn [length for_enumerate].
  change (conversion_start (S (length rest)))
    with (locals_after w h [] (S (length rest))).
  change 0 with (length (@nil MediapipeResults)) at 1.
  unfold convert_frame.
  cbn [locals_after arrays body2d_frameNumber_trackedPointNumber_XY
       rightHand2d_frameNumber_trackedPointNumber_XY
       leftHand2d_frameNumber_trackedPointNumber_XY
       face2d_frameNumber_trackedPointNumber_XY
       body2d_frameNumber_trackedPointNumber_confidence].
  rewrite body_frame_step. cbn [bindR fst snd].
  rewrite (part_frame_step _ w h right_hand_landmarks). cbn [bindR].
  rewrite (part_frame_step _ w h left_hand_landmarks). cbn [bindR].
  rewrite (part_frame_step _ w h face_landmarks). cbn [bindR].
  rewrite getitem_frame_next. cbn [bindR].
  rewrite Hb. unfold part_block. cbn [length].
  destruct (pose_landmarks r) as [l|]; [destruct (last (landmark l))|]; reflexivity.
Qed.

(** ** The session pipeline: what reaches the world *)

Lemma no_npy_between_refl (w : World) : no_npy_between w w.
Proof. exists []. rewrite app_nil_r. split; reflexivity. Qed.

Lemma no_npy_between_trans (w1 w2 w3 : World) :
  no_npy_between w1 w2 -> no_npy_between w2 w3 -> no_npy_between w1 w3.
Proof.
  intros (e1 & H1 & F1) (e2 & H2 & F2). exists (e1 ++ e2). split.
  - rewrite H2, H1, app_assoc. reflexivity.
  - rewrite forallb_app, F1, F2. reflexivity.
Qed.

Lemma quiet_ret {A} (a : A) : quiet (ret a).
Proof. intros w r w' H. injection H as _ <-. apply no_npy_between_refl. Qed.

Lemma quiet_raiseM {A} (e : exn) : quiet (@raiseM A e).
Proof. intros w r w' H. injection H as _ <-. apply no_npy_between_refl. Qed.

Lemma quiet_liftR {A} (c : result A) : quiet (liftR c).
Proof. intros w r w' H. injection H as _ <-. apply no_npy_between_refl. Qed.

Lemma quiet_bindM {A B} (c : M A) (k : A -> M B) :
  quiet c -> (forall a, quiet (k a)) -> quiet (bindM c k).
Proof.
  intros Hc Hk w r w' H. unfold bindM in H.
  destruct (c w) as [[a|e] w1] eqn:E.
  - eapply no_npy_between_trans; [exact (Hc _ _ _ E)|exact (Hk _ _ _ _ H)].
  - injection H as _ <-. exact (Hc _ _ _ E).
Qed.

Lemma quiet_emit (e : Event) : is_npy e = false -> quiet (emit e).
Proof.
  intros He w r w' H. injection H as _ <-. exists [e]. split; [reflexivity|].
  simpl. rewrite He. reflexivity.
Qed.

Lemma quiet_detect_skeleton_in_image (image : Image) :
  quiet (detect_skeleton_in_image image).
Proof.
  intros w r w' H. unfold detect_skeleton_in_image in H.
  destruct (holistic_process (tracker w) image) as [res t].
  injection H as _ <-. exists []. simpl. rewrite app_nil_r. split; reflexivity.
Qed.

Lemma quiet_read_frames capture success image results annotated :
  quiet (read_frames capture success image results annotated).
Proof.
  revert success image results annotated.
  induction capture as [|[s i] capture IH]; intros success image results annotated;
    destruct success, image as [img|]; cbn [read_frames]; try apply quiet_ret.
  - apply quiet_bindM; [apply quiet_detect_skeleton_in_image|]. intros res.
    apply quiet_bindM; [apply quiet_liftR|]. intros a. apply quiet_ret.
  - apply quiet_bindM; [apply quiet_detect_skeleton_in_image|]. intros res.
    apply quiet_bindM; [apply quiet_liftR|]. intros a. apply IH.
Qed.

Lemma quiet_save_annotated_videos images name w h :
  quiet (save_annotated_videos images name w h).
Proof.
  unfold save_annotated_videos.
  destruct (save_image_list_to_disk _ _ _); [apply quiet_raiseM|].
  apply quiet_emit. reflexivity.
Qed.

Lemma quiet_process_video flag v : quiet (process_video flag v).
Proof.
  unfold process_video.
  apply quiet_bindM; [apply quiet_emit; reflexivity|]. intros _.
  destruct (VideoCapture_read (frames v)) as [[success image] capture].
  destruct (negb success || is_None image); [apply quiet_raiseM|].
  apply quiet_bindM; [apply quiet_read_frames|]. intros lists.
  apply quiet_bindM.
  - destruct flag; [apply quiet_save_annotated_videos|apply quiet_ret].
  - intros _. apply quiet_liftR.
Qed.

Lemma quiet_for_append {A B} (body : A -> M B) (l : list A) :
  (forall a, quiet (body a)) -> quiet (for_append body l).
Proof.
  intros Hb. induction l as [|a l IH]; cbn [for_append]; [apply quiet_ret|].
  apply quiet_bindM; [apply Hb|]. intros b.
  apply quiet_bindM; [exact IH|]. intros bs. apply quiet_ret.
Qed.

(** A session that ends in an exception has persisted no array. *)
Lemma process_session_folder_raise folder flag w e w' :
  process_session_folder folder flag w = (Raise e, w') -> no_npy_between w w'.
Proof.
  unfold process_session_folder, bindM at 1. intros H.
  destruct (for_append _ _ w) as [[cams|e1] w1] eqn:E.
  - assert (no_npy_between w w1) as Hq
      by (eapply quiet_for_append; [apply quiet_process_video|exact E]).
    unfold bindM, liftR in H.
    destruct (assemble_cameras cams) as [data|e2]; [discriminate|].
    injection H as _ <-. exact Hq.
  - injection H as _ <-.
    eapply quiet_for_append; [apply quiet_process_video|exact E].
Qed.

Lemma for_append_app {A B} (body : A -> M B) (l1 l2 : list A) (w : World) :
  for_append body (l1 ++ l2) w
  = match for_append body l1 w with
    | (Ok bs1, w1) =>
        match for_append body l2 w1 with
        | (Ok bs2, w2) => (Ok (bs1 ++ bs2), w2)
        | (Raise e, w2) => (Raise e, w2)
        end
    | (Raise e, w1) => (Raise e, w1)
    end.
Proof.
  revert w; induction l1 as [|a l1 IH]; intros w.
  - cbn [app for_append ret]. destruct (for_append body l2 w) as [[bs2|e] w2]; reflexivity.
  - cbn [app for_append]. unfold bindM, ret.
    destruct (body a w) as [[b|e] w0]; [|reflexivity].
    rewrite IH.
    destruct (for_append body l1 w0) as [[bs1|e] w1]; [|reflexivity].
    destruct (for_append body l2 w1) as [[bs2|e] w2]; reflexivity.
Qed.

Lemma process_video_undecodable flag v w :
  first_frame_undecodable v = true ->
  process_video flag v w
  = (Raise Exception,
     {| tracker := tracker w; events := events w ++ [OpenedVideo (file_name v)] |}).
Proof.
  unfold first_frame_undecodable, process_video, bindM, emit. intros H.
  destruct (VideoCapture_read (frames v)) as [[success image] capture].
  rewrite H. reflexivity.
Qed.

(** C5: a video whose first frame cannot be decoded aborts the session.
    When the videos before it were processed, the session raises right after
    opening it: nothing is detected, no later video is opened and nothing
    more is written.  In every case the session ends in an exception and
    persists no array. *)
Theorem first_frame_failure_aborts
    (folder : list VideoFile) (flag : bool) (v : VideoFile)
    (before after : list VideoFile) (w : World) :
  glob_mp4 folder = before ++ v :: after ->
  first_frame_undecodable v = true ->
  (forall cams w1,
     for_append (process_video flag) before w = (Ok cams, w1) ->
     process_session_folder folder flag w
     = (Raise Exception,
        {| tracker := tracker w1;
           events := events w1 ++ [OpenedVideo (file_name v)] |}))
  /\ exists e w',
       process_session_folder folder flag w = (Raise e, w')
       /\ no_npy_between w w'.
Proof.
  intros Hg Hv.
  assert (forall cams w1,
     for_append (process_video flag) before w = (Ok cams, w1) ->
     process_session_folder folder flag w
     = (Raise Exception,
        {| tracker := tracker w1;
           events := events w1 ++ [OpenedVideo (file_name v)] |})) as Hreach.
  { intros cams w1 Hb. unfold process_session_folder, bindM at 1.
    rewrite Hg, for_append_app, Hb. cbn [for_append]. unfold bindM at 1.
    rewrite process_video_undecodable by exact Hv. reflexivity. }
  split; [exact Hreach|].
  destruct (for_append (process_video flag) before w) as [[cams|e] w1] eqn:Hb.
  - eexists _, _. split; [apply (Hreach cams w1 eq_refl)|].
    eapply process_session_folder_raise. apply (Hreach cams w1 eq_refl).
  - assert (process_session_folder folder flag w = (Raise e, w1)) as Hr.
    { unfold process_session_folder, bindM at 1.
      rewrite Hg, for_append_app, Hb. reflexivity. }
    exists e, w1. split; [exact Hr|].
    eapply process_session_folder_raise. exact Hr.
Qed.

(** C9: without [.mp4] files in the folder the session raises [IndexError],
    from the index into the empty list of cameras; the world is as before:
    nothing was opened, checked or persisted. *)
Theorem empty_folder_raises_IndexError
    (folder : list VideoFile) (flag : bool) (w : World) :
  glob_mp4 folder = [] ->
  process_session_folder folder flag w = (Raise IndexError, w).
Proof.
  intros Hg. unfold process_session_folder. rewrite Hg. reflexivity.
Qed.

(** ** The read loop *)

Lemma detect_skeleton_in_image_events image w r w' :
  detect_skeleton_in_image image w = (r, w') ->
  events w' = events w /\ exists res, r = Ok res.
Proof.
  unfold detect_skeleton_in_image.
  destruct (holistic_process (tracker w) image) as [res t].
  intros H; injection H as <- <-. split; [reflexivity|eauto].
Qed.

(** Reading and detecting writes nothing. *)
Lemma read_frames_events capture success image results annotated w r w' :
  read_frames capture success image results annotated w = (r, w') ->
  events w' = events w.
Proof.
  revert success image results annotated w.
  induction capture as [|[s i] capture IH]; intros success image results annotated w;
    destruct success, image as [img|]; cbn [read_frames]; unfold ret;
    try (intros H; injection H as _ <-; reflexivity).
  - unfold bindM, liftR.
    destruct (detect_skeleton_in_image img w) as [[res|e] w0] eqn:E;
      apply detect_skeleton_in_image_events in E as [E _].
    + destruct (_annotate_image img res);
        intros H; injection H as _ <-; exact E.
    + intros H; injection H as _ <-; exact E.
  - unfold bindM at 1, liftR.
    destruct (detect_skeleton_in_image img w) as [[res|e] w0] eqn:E;
      apply detect_skeleton_in_image_events in E as [E _].
    + unfold bindM at 1. destruct (_annotate_image img res).
      * intros H. apply IH in H. congruence.
      * intros H; injection H as _ <-; exact E.
    + intros H; injection H as _ <-; exact E.
Qed.

(** The read loop is left at the first [read] that gives no image, whatever
    the stream holds after it. *)
Lemma read_frames_stops_at_failure images bad rest image results annotated w :
  undecodable bad = true ->
  read_frames ((decoded <$> images) ++ bad :: rest) true (Some image) results annotated w
  = read_frames (decoded <$> images) true (Some image) results annotated w.
Proof.
  intros Hbad. revert image results annotated w.
  induction images as [|image' images IH]; intros image results annotated w.
  - cbn [fmap list_fmap app read_frames]. unfold bindM, liftR.
    destruct (detect_skeleton_in_image image w) as [[res|e] w0]; [|reflexivity].
    destruct (_annotate_image image res) as [a|e]; [|reflexivity].
    destruct bad as [s i]. unfold undecodable in Hbad. simpl in Hbad.
    destruct s, i; try discriminate; destruct rest as [|[? ?] ?]; reflexivity.
  - cbn [fmap list_fmap app read_frames decoded]. unfold bindM, liftR.
    destruct (detect_skeleton_in_image image w) as [[res|e] w0]; [|reflexivity].
    destruct (_annotate_image image res) as [a|e]; [|reflexivity].
    apply IH.
Qed.

Lemma _annotate_image_total image res :
  drawing_total -> exists image', _annotate_image image res = Ok image'.
Proof.
  intros Hd. unfold _annotate_image.
  destruct (Hd image (face_landmarks res) FACEMESH_CONTOURS) as [i1 ->]. cbn [bindR].
  destruct (Hd i1 (face_landmarks res) FACEMESH_TESSELATION) as [i2 ->]. cbn [bindR].
  destruct (Hd i2 (pose_landmarks res) POSE_CONNECTIONS) as [i3 ->]. cbn [bindR].
  destruct (Hd i3 (left_hand_landmarks res) HAND_CONNECTIONS) as [i4 ->]. cbn [bindR].
  destruct (Hd i4 (right_hand_landmarks res) HAND_CONNECTIONS) as [i5 ->]. cbn [bindR].
  eauto.
Qed.

(** Over decoded frames the read loop returns one detection result and one
    annotated image per frame. *)
Lemma read_frames_decoded images image results annotated w :
  drawing_total ->
  exists new_results new_annotated w',
    read_frames (decoded <$> images) true (Some image) results annotated w
    = (Ok (results ++ new_results, annotated ++ new_annotated), w')
    /\ length new_results = S (length images)
    /\ length new_annotated = S (length images)
    /\ events w' = events w.
Proof.
  intros Hd. revert image results annotated w.
  induction images as [|image' images IH]; intros image results annotated w.
  - cbn [fmap list_fmap read_frames]. unfold bindM, liftR, ret.
    destruct (detect_skeleton_in_image image w) as [r w0] eqn:E.
    destruct (detect_skeleton_in_image_events _ _ _ _ E) as [Hev [res ->]].
    destruct (_annotate_image_total image res Hd) as [a ->].
    exists [res], [a], w0. repeat split; assumption.
  - cbn [fmap list_fmap read_frames decoded]. unfold bindM, liftR.
    destruct (detect_skeleton_in_image image w) as [r w0] eqn:E.
    destruct (detect_skeleton_in_image_events _ _ _ _ E) as [Hev [res ->]].
    destruct (_annotate_image_total image res Hd) as [a ->].
    destruct (IH image' (results ++ [res]) (annotated ++ [a]) w0)
      as (nr & na & w' & Hrun & Hnr & Hna & Hev').
    exists (res :: nr), (a :: na), w'.
    rewrite Hrun, <- !app_assoc. cbn [app length].
    repeat split; congruence.
Qed.

(** ** One video *)

Lemma process_video_decoded flag v image capture w :
  frames v = decoded image :: capture ->
  process_video flag v w
  = bindM (read_frames capture true (Some image) [] []) (after_read_loop flag v)
      (opened v w).
Proof.
  intros H. unfold process_video. unfold bindM at 1. unfold emit.
  rewrite H. reflexivity.
Qed.

Lemma save_annotated_videos_run images v w :
  save_annotated_videos images (Path_stem (file_name v))
    (CAP_PROP_FRAME_WIDTH v) (CAP_PROP_FRAME_HEIGHT v) w
  = match save_image_list_to_disk (recorder_of v) images 30 with
    | Some e => (Raise e, w)
    | None =>
        (Ok tt, {| tracker := tracker w;
                   events := events w ++ [SavedAnnotatedVideo (recorder_of v) images 30] |})
    end.
Proof.
  unfold save_annotated_videos.
  change {| recorder_video_name := Path_stem (file_name v) +:+ "_mediapipe.mp4";
            recorder_image_width := CAP_PROP_FRAME_WIDTH v;
            recorder_image_height := CAP_PROP_FRAME_HEIGHT v;
            recorder_session_id := _session_id;
            mediapipe_annotated_video_bool := true |}
    with (recorder_of v).
  destruct (save_image_list_to_disk (recorder_of v) images 30); reflexivity.
Qed.

(** C8: whatever the outcome of processing a video, the only thing written
    after opening it is at most one annotated copy, and that copy is named by
    the stem of the video file followed by [_mediapipe], a dot and [mp4]; it
    is written whenever annotated copies are asked for and the video is
    processed without an exception. *)
Theorem annotated_copy_name
    (flag : bool) (v : VideoFile) (w : World)
    (r : result Mediapipe2dSingleCameraNpyArrays) (w' : World) :
  process_video flag v w = (r, w') ->
  exists evs,
    events w' = events w ++ OpenedVideo (file_name v) :: evs
    /\ (evs = []
        \/ exists images,
             evs = [SavedAnnotatedVideo (recorder_of v) images 30]
             /\ recorder_video_name (recorder_of v)
                = Path_stem (file_name v) +:+ "_mediapipe" +:+ "." +:+ "mp4")
    /\ (flag = true -> (exists out, r = Ok out) -> evs <> []).
Proof.
  unfold process_video. unfold bindM at 1. unfold emit.
  fold (opened v w).
  destruct (VideoCapture_read (frames v)) as [[success image] capture].
  destruct (negb success || is_None image).
  { intros H; injection H as <- <-. exists []. cbn [opened events].
    repeat split; [left; reflexivity|]. intros _ [out Hout]; discriminate. }
  unfold bindM at 1.
  destruct (read_frames capture success image [] [] (opened v w))
    as [[lists|e] w1] eqn:Hread;
    apply read_frames_events in Hread; cbn [opened events] in Hread.
  2:{ intros H; injection H as <- <-. exists []. rewrite Hread.
      repeat split; [left; reflexivity|]. intros _ [out Hout]; discriminate. }
  unfold bindM, liftR. destruct flag.
  - rewrite save_annotated_videos_run.
    destruct (save_image_list_to_disk (recorder_of v) lists.2 30) as [e|].
    + intros H; injection H as <- <-. exists []. rewrite Hread.
      repeat split; [left; reflexivity|]. intros _ [out Hout]; discriminate.
    + intros H; injection H as <- <-.
      exists [SavedAnnotatedVideo (recorder_of v) lists.2 30].
      cbn [events]. rewrite Hread, <- app_assoc.
      repeat split; [right; eauto|]. intros _ _; discriminate.
  - unfold ret. intros H; injection H as <- <-. exists []. rewrite Hread.
    repeat split; [left; reflexivity|]. intros Hflag; discriminate.
Qed.





(** C10: a [read] that gives no image after the first frame ends the video
    like the end of the stream.  The video is processed as if the stream held
    only the frames decoded before; with collaborators that do not raise, it
    yields arrays with one frame per decoded image, and the session goes on
    with the videos that follow. *)
Theorem mid_stream_failure_is_end_of_stream
    (flag : bool) (v : VideoFile) (images : list Image)
    (bad : bool * option Image) (rest : list (bool * option Image))
    (later : list VideoFile) (w : World) :
  catalogue_nonempty -> drawing_total -> recorder_total ->
  frames v = (decoded <$> images) ++ bad :: rest ->
  images <> [] ->
  undecodable bad = true ->
  process_video flag v w = process_video flag (end_of_stream_after v images) w
  /\ exists out w',
       process_video flag v w = (Ok out, w')
       /\ (forall part,
             shape3 (part_XY part out) = (length images, part_points part, 2))
       /\ for_append (process_video flag) (v :: later) w
          = match for_append (process_video flag) later w' with
            | (Ok outs, w'') => (Ok (out :: outs), w'')
            | (Raise e, w'') => (Raise e, w'')
            end.
Proof.
  intros Hc Hd Hs Hframes Himages Hbad.
  destruct images as [|image images]; [congruence|].
  cbn [fmap list_fmap app] in Hframes.
  assert (process_video flag v w
          = bindM (read_frames (decoded <$> images) true (Some image) [] [])
              (after_read_loop flag v) (opened v w)) as Hrun.
  { rewrite (process_video_decoded flag v image _ w Hframes).
    unfold bindM. rewrite read_frames_stops_at_failure by exact Hbad. reflexivity. }
  split.
  { rewrite Hrun.
    rewrite (process_video_decoded flag (end_of_stream_after v (image :: images))
               image (decoded <$> images) w) by reflexivity.
    reflexivity. }
  destruct (read_frames_decoded images image [] [] (opened v w) Hd)
    as (results & annotated & w1 & Hread & Hlen & _ & _).
  cbn [app] in Hread.
  assert (exists w',
            after_read_loop flag v (results, annotated) w1
            = (Ok (arrays (locals_after (CAP_PROP_FRAME_WIDTH v)
                             (CAP_PROP_FRAME_HEIGHT v) results 0)), w'))
    as [w' Hafter].
  { unfold after_read_loop, bindM, liftR, _list_of_mediapipe_results_to_npy_arrays.
    cbn [fst snd]. rewrite conversion_locals_spec by exact Hc. cbn [bindR].
    destruct flag.
    - rewrite save_annotated_videos_run, Hs. eauto.
    - unfold ret. eauto. }
  assert (process_video flag v w
          = (Ok (arrays (locals_after (CAP_PROP_FRAME_WIDTH v)
                           (CAP_PROP_FRAME_HEIGHT v) results 0)), w')) as Hok.
  { rewrite Hrun. unfold bindM at 1. rewrite Hread. exact Hafter. }
  eexists _, w'. split; [exact Hok|]. split.
  - intros part. rewrite part_XY_locals_after. cbn [blocks_after shape3 length].
    rewrite Hlen, Nat.add_0_r. reflexivity.
  - cbn [for_append]. unfold bindM at 1. rewrite Hok.
    unfold bindM, ret.
    destruct (for_append (process_video flag) later w') as [[outs|e] w'']; reflexivity.
Qed.

(** C6, as the code has it: when writing the annotated copy of a video
    raises, the exception ends the session; no arrays are computed for that
    video and no array is persisted. *)
Theorem annotated_copy_failure_aborts
    (folder : list VideoFile) (v : VideoFile)
    (before after : list VideoFile) (w : World)
    (cams : list Mediapipe2dSingleCameraNpyArrays) (w1 : World)
    (image : Image) (capture : list (bool * option Image))
    (lists : list MediapipeResults * list Image) (w2 : World) (e : exn) :
  glob_mp4 folder = before ++ v :: after ->
  for_append (process_video true) before w = (Ok cams, w1) ->
  frames v = decoded image :: capture ->
  read_frames capture true (Some image) [] [] (opened v w1) = (Ok lists, w2) ->
  save_image_list_to_disk (recorder_of v) lists.2 30 = Some e ->
  process_video true v w1 = (Raise e, w2)
  /\ process_session_folder folder true w = (Raise e, w2)
  /\ no_npy_between w w2.
Proof.
  intros Hg Hbefore Hframes Hread Hsave.
  assert (process_video true v w1 = (Raise e, w2)) as Hv.
  { rewrite (process_video_decoded true v image capture w1 Hframes).
    unfold bindM at 1. rewrite Hread.
    unfold after_read_loop, bindM. rewrite save_annotated_videos_run, Hsave.
    reflexivity. }
  assert (process_session_folder folder true w = (Raise e, w2)) as Hsession.
  { unfold process_session_folder, bindM at 1.
    rewrite Hg, for_append_app, Hbefore. cbn [for_append]. unfold bindM at 1.
    rewrite Hv. reflexivity. }
  repeat split; [exact Hv|exact Hsession|].
  eapply process_session_folder_raise. exact Hsession.
Qed.

(** ** Stacking the cameras *)

Lemma setitem_camera_eq data cam a n_cams n0 n1 n2 :
  shape4 data = (n_cams, n0, n1, n2) ->
  setitem_camera data cam a
  = if negb (cam <? n_cams) then Raise IndexError
    else if fits n0 n1 n2 a
    then Ok {| shape4 := shape4 data;
               cells4 := <[cam := broadcast_to n0 n1 n2 a]> (cells4 data) |}
    else Raise (ValueError_broadcast (shape_list a) [n0; n1; n2]).
Proof.
  intros Hs. unfold setitem_camera, fits, broadcast_to, shape_list. rewrite Hs.
  destruct (shape3 a) as [[m0 m1] m2]. reflexivity.
Qed.

(** The loop that fills the stacked array, in closed form: it raises at the
    first camera whose shape cannot be broadcast, and otherwise has stored
    every camera, broadcast, at its index. *)
Lemma stack_loop todo i data n_cams n0 n1 n2 :
  shape4 data = (n_cams, n0, n1, n2) ->
  length (cells4 data) = n_cams ->
  i + length todo <= n_cams ->
  for_enumerate setitem_camera i todo data
  = match find (fun a => negb (fits n0 n1 n2 a)) todo with
    | Some a => Raise (ValueError_broadcast (shape_list a) [n0; n1; n2])
    | None =>
        Ok {| shape4 := shape4 data;
              cells4 := take i (cells4 data)
                        ++ (broadcast_to n0 n1 n2 <$> todo)
                        ++ drop (i + length todo) (cells4 data) |}
    end.
Proof.
  revert i data. induction todo as [|a todo IH]; intros i data Hs Hl Hi.
  - cbn [for_enumerate find fmap list_fmap length app].
    rewrite Nat.add_0_r, take_drop. destruct data; reflexivity.
  - cbn [for_enumerate find length] in *.
    rewrite (setitem_camera_eq data i a n_cams n0 n1 n2 Hs).
    destruct (Nat.ltb_spec i n_cams) as [Hlt|?]; [|lia]. cbn [negb].
    destruct (fits n0 n1 n2 a); cbn [negb bindR]; [|reflexivity].
    rewrite IH; cbn [shape4 cells4];
      [|exact Hs|rewrite length_insert; exact Hl|lia].
    destruct (find _ todo); [reflexivity|].
    do 2 f_equal.
    rewrite (take_S_r _ _ (broadcast_to n0 n1 n2 a))
      by (apply list_lookup_insert_eq; lia).
    rewrite take_insert_ge by lia.
    rewrite drop_insert_lt by lia.
    cbn [fmap list_fmap]. rewrite <- app_assoc.
    replace (S i + length todo) with (i + S (length todo)) by lia.
    reflexivity.
Qed.

Lemma stack_cameras_spec first others n0 n1 n2 :
  shape3 first = (n0, n1, n2) ->
  stack_cameras (first :: others)
  = if negb (n2 =? 2) then Raise Exception
    else match find (fun a => negb (fits n0 n1 n2 a)) (first :: others) with
         | Some a => Raise (ValueError_broadcast (shape_list a) [n0; n1; n2])
         | None =>
             Ok {| shape4 := (S (length others), n0, n1, n2);
                   cells4 := broadcast_to n0 n1 n2 <$> first :: others |}
         end.
Proof.
  intros Hs. unfold stack_cameras. rewrite Hs.
  destruct (negb (n2 =? 2)); [reflexivity|].
  rewrite (stack_loop _ 0 _ (S (length others)) n0 n1 n2);
    [|reflexivity|cbn [np_empty4 cells4]; apply length_replicate|cbn [length]; lia].
  destruct (find _ (first :: others)); [reflexivity|].
  cbn [np_empty4 shape4 cells4]. rewrite take_0.
  rewrite drop_ge by (rewrite length_replicate; cbn [length]; lia).
  rewrite app_nil_r. reflexivity.
Qed.

Lemma find_first_misfit {A} (g : A -> bool) (before after : list A) (a : A) :
  Forall (fun b => g b = false) before -> g a = true ->
  find g (before ++ a :: after) = Some a.
Proof.
  intros Hb Ha. induction Hb as [|b before Hgb _ IH]; cbn [app find].
  - rewrite Ha. reflexivity.
  - rewrite Hgb. exact IH.
Qed.

Lemma fits_false (a : ndarray3) (m0 m1 m2 n0 n1 n2 : nat) :
  shape3 a = (m0, m1, m2) ->
  (m0 <> n0 /\ m0 <> 1) \/ (m1 <> n1 /\ m1 <> 1) \/ (m2 <> n2 /\ m2 <> 1) ->
  fits n0 n1 n2 a = false /\ shape_list a = [m0; m1; m2].
Proof.
  intros Hs H. unfold fits, shape_list, broadcastable. rewrite Hs.
  split; [|reflexivity].
  destruct (Nat.eqb_spec m0 n0), (Nat.eqb_spec m0 1),
    (Nat.eqb_spec m1 n1), (Nat.eqb_spec m1 1),
    (Nat.eqb_spec m2 n2), (Nat.eqb_spec m2 1); try reflexivity; exfalso; lia.
Qed.

(** C2, as the code has it: a spatial dimension other than 2 raises a bare
    [Exception]; otherwise the first camera whose frame count or point count
    differs from that of camera 0 and is not 1 makes the assembly raise an
    error that carries the shape of that camera and the shape of camera 0,
    and no camera index. *)
Theorem stack_cameras_shape_errors
    (first : ndarray3) (others : list ndarray3) (n0 n1 n2 : nat) :
  shape3 first = (n0, n1, n2) ->
  (n2 <> 2 -> stack_cameras (first :: others) = Raise Exception)
  /\ (n2 = 2 ->
      forall before a after m0 m1 m2,
        first :: others = before ++ a :: after ->
        Forall (fun b => fits n0 n1 n2 b = true) before ->
        shape3 a = (m0, m1, m2) ->
        (m0 <> n0 /\ m0 <> 1) \/ (m1 <> n1 /\ m1 <> 1) \/ (m2 <> n2 /\ m2 <> 1) ->
        stack_cameras (first :: others)
        = Raise (ValueError_broadcast [m0; m1; m2] [n0; n1; n2])).
Proof.
  intros Hs. rewrite (stack_cameras_spec first others n0 n1 n2 Hs). split.
  - intros Hn. destruct (Nat.eqb_spec n2 2) as [?|_]; [contradiction|reflexivity].
  - intros -> before a after m0 m1 m2 Hall Hb Ha Hdiff. cbn [Nat.eqb negb].
    destruct (fits_false a m0 m1 m2 n0 n1 2 Ha Hdiff) as [Hfit <-].
    rewrite Hall, (find_first_misfit _ before after a); [reflexivity| |].
    + eapply Forall_impl; [exact Hb|]. intros b Hfitb; simpl. rewrite Hfitb. reflexivity.
    + rewrite Hfit. reflexivity.
Qed.

(** ** The stacked array of a session *)

Lemma zip_with_app_fmap {A B} (g1 g2 : A -> list B) (l : list A) :
  zip_with app (g1 <$> l) (g2 <$> l) = (fun a => g1 a ++ g2 a) <$> l.
Proof. induction l as [|a l IH]; cbn; [reflexivity|]. rewrite IH. reflexivity. Qed.

Lemma zip_with_app_nil {A B} (g : A -> list B) (l : list A) (n : nat) :
  n = length l -> zip_with app (g <$> l) (replicate n []) = g <$> l.
Proof.
  intros ->. induction l as [|a l IH]; cbn; [reflexivity|].
  rewrite IH, app_nil_r. reflexivity.
Qed.

Lemma all_data2d_locals_after (w h : float) (rs : list MediapipeResults) :
  all_data2d_nFrames_nTrackedPts_XY (arrays (locals_after w h rs 0))
  = Ok (stacked_after w h rs).
Proof.
  unfold all_data2d_nFrames_nTrackedPts_XY, np_hstack.
  cbn [locals_after arrays body2d_frameNumber_trackedPointNumber_XY
       rightHand2d_frameNumber_trackedPointNumber_XY
       leftHand2d_frameNumber_trackedPointNumber_XY
       face2d_frameNumber_trackedPointNumber_XY
       blocks_after shape3 cells3 np_hstack_rest].
  rewrite !Nat.eqb_refl. cbn [andb bindR fst snd replicate].
  rewrite !app_nil_r.
  rewrite (zip_with_app_nil _ rs) by lia.
  rewrite !zip_with_app_fmap.
  unfold stacked_after, stacked_block, points_total. do 2 f_equal.
  f_equal. f_equal; lia.
Qed.

(** The arrays of a processed video are those of the closed form, for the
    detection results of its frames. *)
Lemma process_video_Ok flag v w m w' :
  catalogue_nonempty ->
  process_video flag v w = (Ok m, w') ->
  exists rs,
    m = arrays (locals_after (CAP_PROP_FRAME_WIDTH v) (CAP_PROP_FRAME_HEIGHT v) rs 0).
Proof.
  intros Hc. unfold process_video. unfold bindM at 1. unfold emit.
  destruct (VideoCapture_read (frames v)) as [[success image] capture].
  destruct (negb success || is_None image); [discriminate|].
  unfold bindM at 1.
  destruct (read_frames capture success image [] [] _) as [[lists|e] w1];
    [|discriminate].
  unfold bindM, liftR, _list_of_mediapipe_results_to_npy_arrays.
  rewrite conversion_locals_spec by exact Hc. cbn [bindR].
  destruct (if flag then _ else _) as [[[]|e] w2]; [|discriminate].
  intros H; injection H as <- _. eauto.
Qed.

Lemma for_append_Ok {A B} (P : A -> B -> Prop) (body : A -> M B) (l : list A) :
  (forall a w b w', body a w = (Ok b, w') -> P a b) ->
  forall w bs w', for_append body l w = (Ok bs, w') -> Forall2 P l bs.
Proof.
  intros Hbody. induction l as [|a l IH]; intros w bs w'; cbn [for_append].
  - unfold ret. intros H; injection H as <- _. constructor.
  - unfold bindM, ret.
    destruct (body a w) as [[b|e] w0] eqn:Ea; [|discriminate].
    destruct (for_append body l w0) as [[bs0|e] w1] eqn:El; [|discriminate].
    intros H; injection H as <- _. constructor; eauto.
Qed.

Lemma for_each_collect {A B} (g : A -> result B) (l : list A) (acc res : list B) :
  for_each (fun acc a => let! b := g a in Ok (acc ++ [b])) l acc = Ok res ->
  exists bs, res = acc ++ bs /\ Forall2 (fun a b => g a = Ok b) l bs.
Proof.
  revert acc. induction l as [|a l IH]; intros acc; cbn [for_each].
  - intros H; injection H as <-. exists []. rewrite app_nil_r. split; constructor.
  - destruct (g a) as [b|e] eqn:Ea; cbn [bindR]; [|discriminate].
    intros H. apply IH in H as (bs & -> & Hbs).
    exists (b :: bs). rewrite <- app_assoc. split; [reflexivity|].
    constructor; assumption.
Qed.

Lemma broadcast_axis_same {A} (n : nat) (l : list A) : broadcast_axis n n l = l.
Proof. unfold broadcast_axis. rewrite Nat.eqb_refl. reflexivity. Qed.

Lemma broadcast_to_stacked_after n0 w h rs :
  broadcast_to n0 points_total 2 (stacked_after w h rs)
  = broadcast_axis (length rs) n0 (stacked_block w h <$> rs).
Proof.
  unfold broadcast_to, stacked_after. cbn [shape3 cells3]. f_equal.
  transitivity (map id (stacked_block w h <$> rs)); [|apply map_id].
  apply map_ext. intros frame.
  rewrite broadcast_axis_same.
  transitivity (map id frame); [|apply map_id].
  apply map_ext. intros point. apply broadcast_axis_same.
Qed.

Lemma wf_block_app n1 n1' n2 b b' :
  wf_block n1 n2 b -> wf_block n1' n2 b' -> wf_block (n1 + n1') n2 (b ++ b').
Proof.
  intros [Hl Hf] [Hl' Hf']. split.
  - rewrite length_app. lia.
  - apply Forall_app; split; assumption.
Qed.

Lemma wf_block_stacked_block w h r : wf_block points_total 2 (stacked_block w h r).
Proof.
  unfold points_total, stacked_block. rewrite !app_assoc.
  repeat apply wf_block_app; apply wf_block_part_block.
Qed.

Lemma find_none_Forall {A} (g : A -> bool) (l : list A) :
  find g l = None -> Forall (fun a => g a = false) l.
Proof.
  induction l as [|a l IH]; cbn [find]; [constructor|].
  destruct (g a) eqn:E; [discriminate|]. intros H. constructor; auto.
Qed.

Lemma camera_slab m a n0 slab :
  camera_of m a ->
  fits n0 points_total 2 a = true ->
  broadcast_to n0 points_total 2 a = slab ->
  length slab = n0
  /\ forall f row,
       slab !! f = Some row ->
       wf_block points_total 2 row
       /\ exists f' block,
            (frames_of m = n0 -> f' = f)
            /\ (forall part,
                  cells3 (part_XY part m) !! f' = Some (block part)
                  /\ length (block part) = part_points part)
            /\ row = block Body ++ block RightHand ++ block LeftHand ++ block Face.
Proof.
  intros (w & h & rs & -> & ->) Hfit <-.
  rewrite broadcast_to_stacked_after.
  unfold fits, stacked_after in Hfit. cbn [shape3] in Hfit.
  apply andb_true_iff in Hfit as [Hfit _]. apply andb_true_iff in Hfit as [Hfit _].
  unfold broadcastable in Hfit. unfold broadcast_axis.
  assert (forall f r, rs !! f = Some r ->
            exists block,
              (forall part,
                 cells3 (part_XY part (arrays (locals_after w h rs 0))) !! f
                 = Some (block part)
                 /\ length (block part) = part_points part)
              /\ stacked_block w h r
                 = block Body ++ block RightHand ++ block LeftHand ++ block Face)
    as Hrow.
  { intros f r Hr.
    exists (fun part => part_block (part_points part) w h (part_landmarks part r)).
    split; [|reflexivity]. intros part.
    rewrite part_XY_locals_after, (blocks_after_lookup _ _ _ _ _ _ _ Hr).
    split; [reflexivity|]. apply wf_block_part_block. }
  destruct (Nat.eqb_spec (length rs) n0) as [Heq|Hne].
  - split; [rewrite length_fmap; exact Heq|].
    intros f row Hf. rewrite list_lookup_fmap in Hf.
    destruct (rs !! f) as [r|] eqn:Hr; [|discriminate]. injection Hf as <-.
    split; [apply wf_block_stacked_block|].
    destruct (Hrow f r Hr) as (block & Hblock & Heqrow).
    exists f, block. repeat split; [apply Hblock|apply Hblock|exact Heqrow].
  - cbn [orb] in Hfit. apply Nat.eqb_eq in Hfit.
    destruct rs as [|r [|? ?]]; try discriminate. cbn [fmap list_fmap].
    split; [apply length_replicate|].
    intros f row Hf. apply lookup_replicate in Hf as [-> Hlt].
    split; [apply wf_block_stacked_block|].
    destruct (Hrow 0 r eq_refl) as (block & Hblock & Heqrow).
    exists 0, block. repeat split; [|apply Hblock|apply Hblock|exact Heqrow].
    intros Hframes. exfalso. apply Hne. exact Hframes.
Qed.

(** C7: the array of a session that was processed has the shape
    [(cameras, frames, points_total, 2)], where [points_total] is the sum of
    the point counts of the four parts, and its cells have that shape; every
    row of points of a camera is, in this order, a body block, a right hand
    block, a left hand block and a face block of that camera's arrays, taken
    from the same frame of the camera.  That array is what is persisted. *)
Theorem stacked_array_layout
    (folder : list VideoFile) (flag : bool) (w : World)
    (data : ndarray4) (w' : World) :
  catalogue_nonempty ->
  process_session_folder folder flag w = (Ok data, w') ->
  exists cams w1 number_of_frames,
    for_append (process_video flag) (glob_mp4 folder) w = (Ok cams, w1)
    /\ events w'
       = events w1
         ++ [SavedNpy "mediapipe_2dData_numCams_numFrames_numTrackedPoints_pixelXY.npy"
               data]
    /\ points_total
       = part_points Body + part_points RightHand
         + part_points LeftHand + part_points Face
    /\ shape4 data = (length (glob_mp4 folder), number_of_frames, points_total, 2)
    /\ length (cells4 data) = length (glob_mp4 folder)
    /\ forall c slab,
         cells4 data !! c = Some slab ->
         length slab = number_of_frames
         /\ exists m,
              cams !! c = Some m
              /\ forall f row,
                   slab !! f = Some row ->
                   wf_block points_total 2 row
                   /\ exists f' block,
                        (frames_of m = number_of_frames -> f' = f)
                        /\ (forall part,
                              cells3 (part_XY part m) !! f' = Some (block part)
                              /\ length (block part) = part_points part)
                        /\ row = block Body ++ block RightHand
                                 ++ block LeftHand ++ block Face.
Proof.
  intros Hc. unfold process_session_folder. unfold bindM at 1.
  destruct (for_append (process_video flag) (glob_mp4 folder) w)
    as [[cams|e] w1] eqn:Hloop; [|discriminate].
  unfold bindM at 1. unfold liftR.
  destruct (assemble_cameras cams) as [data0|e] eqn:Hasm; [|discriminate].
  unfold bindM, _save_mediapipe2d_data_to_npy, emit, ret.
  intros H; injection H as <- <-.
  assert (Forall2 (fun v m =>
            exists rs, m = arrays (locals_after (CAP_PROP_FRAME_WIDTH v)
                                     (CAP_PROP_FRAME_HEIGHT v) rs 0))
            (glob_mp4 folder) cams) as Hcams.
  { eapply for_append_Ok; [|exact Hloop].
    intros v w0 m w0' Hv. exact (process_video_Ok flag v w0 m w0' Hc Hv). }
  unfold assemble_cameras in Hasm.
  destruct (all_cameras_data2d cams) as [all|e] eqn:Hall; [|discriminate].
  cbn [bindR] in Hasm.
  apply for_each_collect in Hall as (bs & -> & Hbs). cbn [app] in Hasm.
  assert (Forall2 camera_of cams bs) as Hof.
  { clear Hasm Hloop. revert bs Hbs.
    induction Hcams as [|v m vs ms [rs ->] _ IH]; intros bs Hbs;
      inversion Hbs as [|? a ? bs' Ha Hbs']; subst; constructor.
    - assert (Ok a = Ok (stacked_after (CAP_PROP_FRAME_WIDTH v)
                             (CAP_PROP_FRAME_HEIGHT v) rs)) as Heq
        by (rewrite <- Ha; apply all_data2d_locals_after).
      injection Heq as ->.
      eexists _, _, rs. split; reflexivity.
    - apply IH. exact Hbs'. }
  destruct bs as [|first others]; [discriminate|].
  assert (exists n0, shape3 first = (n0, points_total, 2)) as [n0 Hshape].
  { inversion Hof as [|m ? ms ? (w0 & h0 & rs0 & _ & ->) _]; subst.
    eexists. reflexivity. }
  rewrite (stack_cameras_spec first others n0 points_total 2 Hshape) in Hasm.
  cbn [Nat.eqb negb] in Hasm.
  assert (S (length others) = length (first :: others)) as Hlen3 by reflexivity.
  remember (first :: others) as all eqn:Heqall.
  destruct (find _ all) as [a|] eqn:Hfind; [discriminate|].
  injection Hasm as <-.
  apply find_none_Forall in Hfind.
  pose proof (Forall2_length _ _ _ Hcams) as Hlen1.
  pose proof (Forall2_length _ _ _ Hof) as Hlen2.
  exists cams, w1, n0. cbn [events shape4 cells4].
  split; [reflexivity|]. split; [reflexivity|]. split; [reflexivity|].
  split; [rewrite Hlen1, Hlen2, Hlen3; reflexivity|].
  split; [rewrite length_fmap, Hlen1, Hlen2; reflexivity|].
  intros c slab Hslab. rewrite list_lookup_fmap in Hslab.
  destruct (all !! c) as [a|] eqn:Ha; [|discriminate].
  injection Hslab as Hslab.
  destruct (Forall2_lookup_r _ _ _ _ _ Hof Ha) as (m & Hm & Hma).
  assert (fits n0 points_total 2 a = true) as Hfit.
  { eapply Forall_lookup_1 in Hfind; [|exact Ha]. simpl in Hfind.
    apply negb_false_iff. exact Hfind. }
  destruct (camera_slab m a n0 slab Hma Hfit Hslab) as [Hl Hrows].
  split; [exact Hl|]. exists m. split; [exact Hm|exact Hrows].
Qed.

(** ** More on the conversion *)

Lemma forallb_replicate_S {A} (P : A -> bool) (n : nat) (a : A) :
  forallb P (replicate (S n) a) = P a.
Proof.
  induction n as [|n IH]; cbn [replicate forallb] in *.
  - apply andb_true_r.
  - rewrite IH. apply andb_diag.
Qed.

Lemma no_nan_replicate (n : nat) (u v : float) :
  0 < n ->
  no_nan (replicate n [u; v])
  = negb (PrimFloat.is_nan u) && negb (PrimFloat.is_nan v).
Proof.
  intros Hn. destruct n as [|n]; [lia|].
  unfold no_nan. rewrite forallb_replicate_S. cbn [forallb].
  rewrite andb_true_r. reflexivity.
Qed.

Lemma no_nan_part_block (n : nat) (w h : float) (l : option NormalizedLandmarkList) :
  0 < n ->
  no_nan (part_block n w h l) = true
  <-> exists l0 lm,
        l = Some l0 /\ last (landmark l0) = Some lm
        /\ PrimFloat.is_nan (x lm * w) = false
        /\ PrimFloat.is_nan (y lm * h) = false.
Proof.
  intros Hn. unfold part_block.
  change (replicate 2 nan) with [nan; nan].
  destruct l as [l0|]; [destruct (last (landmark l0)) as [lm|] eqn:Hlast|].
  - unfold pixel_XY. rewrite no_nan_replicate by exact Hn.
    rewrite andb_true_iff, !negb_true_iff. split.
    + intros [Hx Hy]. exists l0, lm. auto.
    + intros (l1 & lm1 & Hl & Hl1 & Hx & Hy).
      injection Hl as <-. rewrite Hlast in Hl1. injection Hl1 as <-. auto.
  - rewrite (no_nan_replicate n nan nan) by exact Hn. split; [discriminate|].
    intros (l1 & lm1 & Hl & Hl1 & _). injection Hl as <-. congruence.
  - rewrite (no_nan_replicate n nan nan) by exact Hn. split; [discriminate|].
    intros (l1 & lm1 & Hl & _). discriminate.
Qed.

Lemma part_points_positive (part : Part) : catalogue_nonempty -> 0 < part_points part.
Proof. intros (Hb & Hr & Hl & Hf). destruct part; assumption. Qed.

(** X3: whatever is detected, the conversion returns arrays of constant
    shape: every coordinate array is [(frames, points of the part, 2)], the
    confidence array is [(frames, body points)], the cells agree with these
    shapes, and there is one flag per frame in each of the five lists. *)
Theorem conversion_shapes (rs : list MediapipeResults) (w h : float) :
  catalogue_nonempty ->
  exists st,
    conversion_locals rs w h = Ok st
    /\ _list_of_mediapipe_results_to_npy_arrays rs w h = Ok (arrays st)
    /\ (forall part,
          shape3 (part_XY part (arrays st)) = (length rs, part_points part, 2)
          /\ wf3 (part_XY part (arrays st))
          /\ length (part_visible_list part st) = length rs)
    /\ shape2 (body2d_frameNumber_trackedPointNumber_confidence (arrays st))
       = (length rs, length body_names_list)
    /\ wf2 (body2d_frameNumber_trackedPointNumber_confidence (arrays st))
    /\ length (all_tracked_points_visible_on_this_frame_list st) = length rs.
Proof.
  intros Hc. exists (locals_after w h rs 0).
  split; [apply conversion_locals_spec; exact Hc|]. split.
  { unfold _list_of_mediapipe_results_to_npy_arrays.
    rewrite conversion_locals_spec by exact Hc. reflexivity. }
  split; [|split; [|split]].
  - intros part. rewrite part_XY_locals_after, part_visible_locals_after.
    split; [|split].
    + cbn [blocks_after shape3]. rewrite Nat.add_0_r. reflexivity.
    + apply wf3_blocks_after.
    + apply length_fmap.
  - cbn [locals_after arrays body2d_frameNumber_trackedPointNumber_confidence
         confidence_after shape2].
    rewrite Nat.add_0_r. reflexivity.
  - apply wf2_confidence_after.
  - cbn [locals_after all_tracked_points_visible_on_this_frame_list].
    apply length_fmap.
Qed.

(** X4: a part that is present with an empty landmark list is treated like
    an absent part: its block stays NaN in that frame, and its flag and the
    overall flag of the frame are false. *)
Theorem empty_landmark_list_leaves_nan
    (rs : list MediapipeResults) (w h : float) (part : Part) (f : nat)
    (r : MediapipeResults) (l : NormalizedLandmarkList) :
  catalogue_nonempty ->
  rs !! f = Some r ->
  part_landmarks part r = Some l ->
  landmark l = [] ->
  exists st,
    conversion_locals rs w h = Ok st
    /\ cells3 (part_XY part (arrays st)) !! f
       = Some (replicate (part_points part) [nan; nan])
    /\ part_visible_list part st !! f = Some false
    /\ all_tracked_points_visible_on_this_frame_list st !! f = Some false.
Proof.
  intros Hc Hf Hl Hempty. exists (locals_after w h rs 0).
  split; [apply conversion_locals_spec; exact Hc|].
  assert (part_block (part_points part) w h (part_landmarks part r)
          = replicate (part_points part) [nan; nan]) as Hblock
    by (unfold part_block; rewrite Hl, Hempty; reflexivity).
  assert (no_nan (part_block (part_points part) w h (part_landmarks part r)) = false)
    as Hflag.
  { rewrite Hblock, no_nan_replicate by (apply part_points_positive; exact Hc).
    reflexivity. }
  split; [|split].
  - rewrite part_XY_locals_after, (blocks_after_lookup _ _ _ _ _ _ _ Hf).
    rewrite Hblock. reflexivity.
  - rewrite part_visible_locals_after, list_lookup_fmap, Hf. cbn. rewrite Hflag.
    reflexivity.
  - cbn [locals_after all_tracked_points_visible_on_this_frame_list].
    rewrite list_lookup_fmap, Hf. cbn [fmap option_fmap option_map]. f_equal.
    destruct part; cbn [part_points part_landmarks] in Hflag; rewrite Hflag;
      rewrite ?andb_false_r; reflexivity.
Qed.

(** X5: converting a list of results frame by frame composes: the arrays and
    the flags for [rs1 ++ rs2] are those for [rs1] followed by those for
    [rs2]. *)
Theorem conversion_app (rs1 rs2 : list MediapipeResults) (w h : float) :
  catalogue_nonempty ->
  exists st1 st2 st,
    conversion_locals rs1 w h = Ok st1
    /\ conversion_locals rs2 w h = Ok st2
    /\ conversion_locals (rs1 ++ rs2) w h = Ok st
    /\ (forall part,
          cells3 (part_XY part (arrays st))
          = cells3 (part_XY part (arrays st1)) ++ cells3 (part_XY part (arrays st2))
          /\ part_visible_list part st
             = part_visible_list part st1 ++ part_visible_list part st2)
    /\ cells2 (body2d_frameNumber_trackedPointNumber_confidence (arrays st))
       = cells2 (body2d_frameNumber_trackedPointNumber_confidence (arrays st1))
         ++ cells2 (body2d_frameNumber_trackedPointNumber_confidence (arrays st2))
    /\ all_tracked_points_visible_on_this_frame_list st
       = all_tracked_points_visible_on_this_frame_list st1
         ++ all_tracked_points_visible_on_this_frame_list st2.
Proof.
  intros Hc.
  exists (locals_after w h rs1 0), (locals_after w h rs2 0),
    (locals_after w h (rs1 ++ rs2) 0).
  rewrite !conversion_locals_spec by exact Hc.
  split; [reflexivity|]. split; [reflexivity|]. split; [reflexivity|].
  split; [|split].
  - intros part. rewrite !part_XY_locals_after, !part_visible_locals_after.
    cbn [blocks_after cells3 replicate]. rewrite !app_nil_r, !fmap_app.
    split; reflexivity.
  - cbn [locals_after arrays body2d_frameNumber_trackedPointNumber_confidence
         confidence_after cells2 replicate].
    rewrite !app_nil_r, fmap_app. reflexivity.
  - cbn [locals_after all_tracked_points_visible_on_this_frame_list].
    apply fmap_app.
Qed.

(** X6: the flag of a part in a frame is true exactly when the part was
    found with at least one landmark and neither pixel coordinate computed
    from the last landmark is NaN; a frame whose overall flag is true has all
    four parts found. *)
Theorem visibility_by_detection
    (rs : list MediapipeResults) (w h : float) (f : nat) (r : MediapipeResults) :
  catalogue_nonempty ->
  rs !! f = Some r ->
  exists st,
    conversion_locals rs w h = Ok st
    /\ (forall part,
          part_visible_list part st !! f = Some true
          <-> exists l lm,
                part_landmarks part r = Some l
                /\ last (landmark l) = Some lm
                /\ PrimFloat.is_nan (x lm * w) = false
                /\ PrimFloat.is_nan (y lm * h) = false)
    /\ (all_tracked_points_visible_on_this_frame_list st !! f = Some true ->
        forall part, exists l, part_landmarks part r = Some l /\ landmark l <> []).
Proof.
  intros Hc Hf. exists (locals_after w h rs 0).
  split; [apply conversion_locals_spec; exact Hc|].
  assert (forall part,
            part_visible_list part (locals_after w h rs 0) !! f = Some true
            <-> exists l lm,
                  part_landmarks part r = Some l
                  /\ last (landmark l) = Some lm
                  /\ PrimFloat.is_nan (x lm * w) = false
                  /\ PrimFloat.is_nan (y lm * h) = false) as Hpart.
  { intros part. rewrite part_visible_locals_after, list_lookup_fmap, Hf.
    cbn [fmap option_fmap option_map].
    rewrite <- (no_nan_part_block (part_points part) w h (part_landmarks part r))
      by (apply part_points_positive; exact Hc).
    split; [intros H; injection H as ->; reflexivity|intros ->; reflexivity]. }
  split; [exact Hpart|].
  cbn [locals_after all_tracked_points_visible_on_this_frame_list].
  rewrite list_lookup_fmap, Hf. cbn [fmap option_fmap option_map].
  intros H. injection H as H.
  apply andb_true_iff in H as [Hb H]. apply andb_true_iff in H as [Hr H].
  apply andb_true_iff in H as [Hl H]. apply andb_true_iff in H as [Hface _].
  intros part.
  assert (part_visible_list part (locals_after w h rs 0) !! f = Some true) as Hv.
  { rewrite part_visible_locals_after, list_lookup_fmap, Hf.
    cbn [fmap option_fmap option_map]. f_equal.
    destruct part; assumption. }
  apply Hpart in Hv as (l & lm & Hl0 & Hlast & _).
  exists l. split; [exact Hl0|]. intros Hnil. rewrite Hnil in Hlast. discriminate.
Qed.

Lemma all_sum_part_block (n : nat) (w h : float) (l : option NormalizedLandmarkList) :
  all_sum_isnan_eq_zero (part_block n w h l)
  = if n =? 0 then Raise TypeError else Ok (no_nan (part_block n w h l)).
Proof.
  destruct n as [|n]; cbn [Nat.eqb].
  - unfold part_block.
    destruct l as [l0|]; [destruct (last (landmark l0))|]; reflexivity.
  - apply (all_sum_isnan_eq_zero_spec (S n) 2); [lia|apply wf_block_part_block].
Qed.

Lemma convert_frame_without_points w h done k r :
  ~ catalogue_nonempty ->
  convert_frame w h (locals_after w h done (S k)) (length done) r = Raise TypeError.
Proof.
  intros Hc. unfold convert_frame.
  cbn [locals_after arrays body2d_frameNumber_trackedPointNumber_XY
       rightHand2d_frameNumber_trackedPointNumber_XY
       leftHand2d_frameNumber_trackedPointNumber_XY
       face2d_frameNumber_trackedPointNumber_XY
       body2d_frameNumber_trackedPointNumber_confidence].
  rewrite body_frame_step. cbn [bindR fst snd].
  rewrite (part_frame_step _ w h right_hand_landmarks). cbn [bindR].
  rewrite (part_frame_step _ w h left_hand_landmarks). cbn [bindR].
  rewrite (part_frame_step _ w h face_landmarks). cbn [bindR].
  rewrite !getitem_frame_next. cbn [bindR].
  rewrite all_sum_part_block.
  destruct (Nat.eqb_spec (length body_names_list) 0) as [|Hb]; [reflexivity|].
  cbn [bindR]. rewrite all_sum_part_block.
  destruct (Nat.eqb_spec (length right_hand_names_list) 0) as [|Hr]; [reflexivity|].
  cbn [bindR]. rewrite all_sum_part_block.
  destruct (Nat.eqb_spec (length left_hand_names_list) 0) as [|Hl]; [reflexivity|].
  cbn [bindR]. rewrite all_sum_part_block.
  destruct (Nat.eqb_spec FACEMESH_NUM_LANDMARKS_WITH_IRISES 0) as [|Hf]; [reflexivity|].
  exfalso. apply Hc. unfold catalogue_nonempty. lia.
Qed.

(** X7: the conversion returns arrays exactly when there is no frame to
    convert or the catalogue names at least one point for every part; with a
    frame to convert and a part without points it raises [TypeError]. *)
Theorem conversion_succeeds_iff (rs : list MediapipeResults) (w h : float) :
  ((exists out, _list_of_mediapipe_results_to_npy_arrays rs w h = Ok out)
   <-> rs = [] \/ catalogue_nonempty)
  /\ (rs <> [] -> ~ catalogue_nonempty ->
      _list_of_mediapipe_results_to_npy_arrays rs w h = Raise TypeError).
Proof.
  assert (rs <> [] -> ~ catalogue_nonempty ->
          _list_of_mediapipe_results_to_npy_arrays rs w h = Raise TypeError) as Hraise.
  { intros Hrs Hc. destruct rs as [|r rest]; [congruence|].
    unfold _list_of_mediapipe_results_to_npy_arrays, conversion_locals.
    cbn [length for_enumerate].
    change (conversion_start (S (length rest)))
      with (locals_after w h [] (S (length rest))).
    change 0 with (length (@nil MediapipeResults)) at 1.
    rewrite convert_frame_without_points by exact Hc. reflexivity. }
  split; [|exact Hraise]. split.
  - intros [out Hout].
    destruct rs as [|r rest]; [left; reflexivity|]. right.
    destruct (decide (0 < length body_names_list)) as [Hb|Hb];
      [destruct (decide (0 < length right_hand_names_list)) as [Hr|Hr];
       [destruct (decide (0 < length left_hand_names_list)) as [Hl|Hl];
        [destruct (decide (0 < FACEMESH_NUM_LANDMARKS_WITH_IRISES)) as [Hf|Hf];
         [repeat split; assumption|]|]|]|];
      exfalso;
      (rewrite Hraise in Hout;
       [discriminate|discriminate|unfold catalogue_nonempty; tauto]).
  - intros [->|Hc]; [eexists; reflexivity|].
    exists (arrays (locals_after w h rs 0)).
    unfold _list_of_mediapipe_results_to_npy_arrays.
    rewrite conversion_locals_spec by exact Hc. reflexivity.
Qed.

(** ** The order of detection and of what is written *)

Lemma track_app (t : Tracker) (l1 l2 : list Image) :
  track t (l1 ++ l2)
  = ((track t l1).1 ++ (track (track t l1).2 l2).1, (track (track t l1).2 l2).2).
Proof.
  revert t. induction l1 as [|image l1 IH]; intros t; cbn [app track fst snd].
  - destruct (track t l2); reflexivity.
  - destruct (holistic_process t image) as [r t']. rewrite IH.
    destruct (track t' l1) as [rs1 t1]. cbn [fst snd].
    destruct (track t1 l2) as [rs2 t2]. reflexivity.
Qed.

(** A read loop that ends without an exception has run the tracker over the
    decoded images in their order and has annotated each of them. *)
Lemma read_frames_track capture success image results annotated w rs imgs w' :
  read_frames capture success image results annotated w = (Ok (rs, imgs), w') ->
  rs = results ++ (track (tracker w) (decoded_prefix ((success, image) :: capture))).1
  /\ tracker w' = (track (tracker w) (decoded_prefix ((success, image) :: capture))).2
  /\ length imgs
     = length annotated + length (decoded_prefix ((success, image) :: capture))
  /\ events w' = events w.
Proof.
  revert success image results annotated w.
  induction capture as [|[s i] capture IH]; intros success image results annotated w;
    destruct success, image as [img|];
    try solve [cbn [read_frames decoded_prefix track fst snd]; unfold ret;
               intros H; injection H as <- <- <-;
               rewrite app_nil_r, Nat.add_0_r; repeat split; reflexivity].
  - cbn [read_frames decoded_prefix track fst snd].
    unfold bindM, liftR, detect_skeleton_in_image, ret.
    destruct (holistic_process (tracker w) img) as [res t].
    destruct (_annotate_image img res) as [a|e]; [|discriminate].
    intros H; injection H as <- <- <-. cbn [fst snd tracker events length].
    rewrite length_app. repeat split; reflexivity.
  - change (decoded_prefix ((true, Some img) :: (s, i) :: capture))
      with (img :: decoded_prefix ((s, i) :: capture)).
    cbn [read_frames track].
    unfold bindM at 1, liftR, detect_skeleton_in_image.
    destruct (holistic_process (tracker w) img) as [res t].
    unfold bindM at 1. destruct (_annotate_image img res) as [a|e]; [|discriminate].
    intros H. apply IH in H as (Hrs & Ht & Hlen & Hev).
    cbn [tracker events] in *.
    destruct (track t (decoded_prefix ((s, i) :: capture))) as [rs' t'].
    cbn [fst snd length] in *. rewrite <- app_assoc in Hrs. cbn [app] in Hrs.
    rewrite length_app in Hlen. cbn [length] in Hlen.
    repeat split; [exact Hrs|exact Ht|lia|exact Hev].
Qed.

Lemma process_video_Ok_run flag v w out w' :
  process_video flag v w = (Ok out, w') ->
  decoded_prefix (frames v) <> []
  /\ _list_of_mediapipe_results_to_npy_arrays
       (track (tracker w) (decoded_prefix (frames v))).1
       (CAP_PROP_FRAME_WIDTH v) (CAP_PROP_FRAME_HEIGHT v) = Ok out
  /\ tracker w' = (track (tracker w) (decoded_prefix (frames v))).2
  /\ exists images,
       length images = length (decoded_prefix (frames v))
       /\ events w' = events w ++ video_events flag v images.
Proof.
  unfold process_video. unfold bindM at 1. unfold emit. fold (opened v w).
  destruct (frames v) as [|[success image] capture] eqn:Hframes;
    cbn [VideoCapture_read]; [discriminate|].
  destruct success, image as [img|]; cbn [negb orb is_None]; try discriminate.
  unfold bindM at 1.
  destruct (read_frames capture true (Some img) [] [] (opened v w))
    as [[[rs imgs]|e] w1] eqn:Hread; [|discriminate].
  apply read_frames_track in Hread as (Hrs & Ht & Hlen & Hev).
  cbn [opened tracker events app length] in Hrs, Ht, Hlen, Hev.
  unfold bindM, liftR. cbn [fst snd]. intros H.
  split; [discriminate|].
  destruct flag.
  - rewrite save_annotated_videos_run in H.
    destruct (save_image_list_to_disk (recorder_of v) imgs 30); [discriminate|].
    injection H as H <-. cbn [tracker events]. rewrite <- Hrs.
    repeat split; [exact H|exact Ht|].
    exists imgs. split; [exact Hlen|].
    rewrite Hev, <- app_assoc. reflexivity.
  - unfold ret in H. injection H as H <-. rewrite <- Hrs.
    repeat split; [exact H|exact Ht|].
    exists imgs. split; [exact Hlen|]. exact Hev.
Qed.

(** X8: the arrays of a processed video are the conversion of what the
    tracker returns for the frames decoded before the first failing [read],
    fed to it in decode order, one call per frame; at least one frame was
    decoded. *)
Theorem process_video_tracks_decoded_frames
    (flag : bool) (v : VideoFile) (w : World)
    (out : Mediapipe2dSingleCameraNpyArrays) (w' : World) :
  process_video flag v w = (Ok out, w') ->
  decoded_prefix (frames v) <> []
  /\ _list_of_mediapipe_results_to_npy_arrays
       (track (tracker w) (decoded_prefix (frames v))).1
       (CAP_PROP_FRAME_WIDTH v) (CAP_PROP_FRAME_HEIGHT v) = Ok out
  /\ tracker w' = (track (tracker w) (decoded_prefix (frames v))).2.
Proof.
  intros H. apply process_video_Ok_run in H as (Hne & Hout & Ht & _).
  repeat split; assumption.
Qed.

Lemma for_append_process_video flag vs w cams w1 :
  for_append (process_video flag) vs w = (Ok cams, w1) ->
  tracker w1
  = (track (tracker w) (concat ((fun v => decoded_prefix (frames v)) <$> vs))).2
  /\ exists annotated,
       Forall2 (fun v images => length images = length (decoded_prefix (frames v)))
         vs annotated
       /\ events w1 = events w ++ concat (zip_with (video_events flag) vs annotated).
Proof.
  revert w cams. induction vs as [|v vs IH]; intros w cams; cbn [for_append].
  - unfold ret. intros H; injection H as _ <-. split; [reflexivity|].
    exists []. split; [constructor|]. cbn. rewrite app_nil_r. reflexivity.
  - unfold bindM, ret.
    destruct (process_video flag v w) as [[m|e] w0] eqn:Hv; [|discriminate].
    destruct (for_append (process_video flag) vs w0) as [[ms|e] w2] eqn:Hvs;
      [|discriminate].
    intros H; injection H as _ <-.
    apply process_video_Ok_run in Hv as (_ & _ & Ht & images & Hlen & Hev).
    apply IH in Hvs as (Ht2 & annotated & Hall & Hev2).
    split.
    + cbn [fmap list_fmap concat]. rewrite track_app. cbn [snd].
      rewrite <- Ht. exact Ht2.
    + exists (images :: annotated). split; [constructor; assumption|].
      cbn [zip_with concat]. rewrite Hev2, Hev, <- app_assoc. reflexivity.
Qed.

(** X9: in a session that ends without an exception, one tracker has seen
    the decoded frames of all videos, video after video in the order of the
    listing; its state is carried from one video to the next and is never
    reset. *)
Theorem session_tracks_all_videos_in_order
    (folder : list VideoFile) (flag : bool) (w : World)
    (data : ndarray4) (w' : World) :
  process_session_folder folder flag w = (Ok data, w') ->
  tracker w'
  = (track (tracker w)
       (concat ((fun v => decoded_prefix (frames v)) <$> glob_mp4 folder))).2.
Proof.
  unfold process_session_folder. unfold bindM at 1.
  destruct (for_append (process_video flag) (glob_mp4 folder) w)
    as [[cams|e] w1] eqn:Hloop; [|discriminate].
  unfold bindM, liftR, _save_mediapipe2d_data_to_npy, emit, ret.
  destruct (assemble_cameras cams) as [data0|e]; [|discriminate].
  intros H; injection H as _ <-. cbn [tracker].
  apply for_append_process_video in Hloop as [Ht _]. exact Ht.
Qed.

(** X10: what a session that ends without an exception has written, in
    order: for every video of the listing its opening, followed by its
    annotated copy when copies are asked for (one image per decoded frame,
    frame rate 30), and last of all the stacked array, once. *)
Theorem session_event_trace
    (folder : list VideoFile) (flag : bool) (w : World)
    (data : ndarray4) (w' : World) :
  process_session_folder folder flag w = (Ok data, w') ->
  exists annotated,
    Forall2 (fun v images => length images = length (decoded_prefix (frames v)))
      (glob_mp4 folder) annotated
    /\ events w'
       = events w
         ++ concat (zip_with (video_events flag) (glob_mp4 folder) annotated)
         ++ [SavedNpy "mediapipe_2dData_numCams_numFrames_numTrackedPoints_pixelXY.npy"
               data].
Proof.
  unfold process_session_folder. unfold bindM at 1.
  destruct (for_append (process_video flag) (glob_mp4 folder) w)
    as [[cams|e] w1] eqn:Hloop; [|discriminate].
  unfold bindM, liftR, _save_mediapipe2d_data_to_npy, emit, ret.
  destruct (assemble_cameras cams) as [data0|e]; [|discriminate].
  intros H; injection H as <- <-. cbn [events].
  apply for_append_process_video in Hloop as (_ & annotated & Hall & Hev).
  exists annotated. split; [exact Hall|].
  rewrite Hev, <- app_assoc. reflexivity.
Qed.

(** ** Annotated copies and the numeric output *)

Lemma same_but_events_ret {A} (a : A) : same_but_events (ret a) (ret a).
Proof. intros w1 w2 Ht. split; [reflexivity|exact Ht]. Qed.

Lemma same_but_events_raiseM {A} (e : exn) : same_but_events (@raiseM A e) (raiseM e).
Proof. intros w1 w2 Ht. split; [reflexivity|exact Ht]. Qed.

Lemma same_but_events_liftR {A} (r : result A) : same_but_events (liftR r) (liftR r).
Proof. intros w1 w2 Ht. split; [reflexivity|exact Ht]. Qed.

Lemma same_but_events_emit (e1 e2 : Event) : same_but_events (emit e1) (emit e2).
Proof. intros w1 w2 Ht. split; [reflexivity|exact Ht]. Qed.

Lemma same_but_events_emit_ret (e : Event) : same_but_events (emit e) (ret tt).
Proof. intros w1 w2 Ht. split; [reflexivity|exact Ht]. Qed.

Lemma same_but_events_bindM {A B} (c1 c2 : M A) (k1 k2 : A -> M B) :
  same_but_events c1 c2 -> (forall a, same_but_events (k1 a) (k2 a)) ->
  same_but_events (bindM c1 k1) (bindM c2 k2).
Proof.
  intros Hc Hk w1 w2 Ht. unfold bindM.
  destruct (Hc w1 w2 Ht) as [Hr Ht'].
  destruct (c1 w1) as [[a1|e1] w1'], (c2 w2) as [[a2|e2] w2'];
    cbn [fst snd] in Hr, Ht'; try discriminate.
  - injection Hr as <-. apply Hk. exact Ht'.
  - injection Hr as <-. split; [reflexivity|exact Ht'].
Qed.

Lemma same_but_events_detect (image : Image) :
  same_but_events (detect_skeleton_in_image image) (detect_skeleton_in_image image).
Proof.
  intros w1 w2 Ht. unfold detect_skeleton_in_image. rewrite Ht.
  destruct (holistic_process (tracker w2) image) as [res t].
  split; reflexivity.
Qed.

Lemma same_but_events_read_frames capture success image results annotated :
  same_but_events (read_frames capture success image results annotated)
    (read_frames capture success image results annotated).
Proof.
  revert success image results annotated.
  induction capture as [|[s i] capture IH]; intros success image results annotated;
    destruct success, image as [img|]; cbn [read_frames];
    try apply same_but_events_ret.
  - apply same_but_events_bindM; [apply same_but_events_detect|]. intros res.
    apply same_but_events_bindM; [apply same_but_events_liftR|]. intros a.
    apply same_but_events_ret.
  - apply same_but_events_bindM; [apply same_but_events_detect|]. intros res.
    apply same_but_events_bindM; [apply same_but_events_liftR|]. intros a.
    apply IH.
Qed.

Lemma same_but_events_process_video (v : VideoFile) :
  recorder_total ->
  same_but_events (process_video true v) (process_video false v).
Proof.
  intros Hs. unfold process_video.
  apply same_but_events_bindM; [apply same_but_events_emit|]. intros _.
  destruct (VideoCapture_read (frames v)) as [[success image] capture].
  destruct (negb success || is_None image); [apply same_but_events_raiseM|].
  apply same_but_events_bindM; [apply same_but_events_read_frames|]. intros lists.
  apply same_but_events_bindM; [|intros _; apply same_but_events_liftR].
  unfold save_annotated_videos. rewrite Hs. apply same_but_events_emit_ret.
Qed.

Lemma same_but_events_for_append {A B} (body1 body2 : A -> M B) (l : list A) :
  (forall a, same_but_events (body1 a) (body2 a)) ->
  same_but_events (for_append body1 l) (for_append body2 l).
Proof.
  intros Hb. induction l as [|a l IH]; cbn [for_append];
    [apply same_but_events_ret|].
  apply same_but_events_bindM; [apply Hb|]. intros b.
  apply same_but_events_bindM; [exact IH|]. intros bs. apply same_but_events_ret.
Qed.

(** X11: with a recorder that does not raise, asking for annotated copies
    changes nothing in the numeric output: the session returns the same array
    or raises the same exception, and leaves the tracker in the same state,
    whether copies are written or not. *)
Theorem annotated_copies_do_not_change_output
    (folder : list VideoFile) (w : World) :
  recorder_total ->
  (process_session_folder folder true w).1 = (process_session_folder folder false w).1
  /\ tracker (process_session_folder folder true w).2
     = tracker (process_session_folder folder false w).2.
Proof.
  intros Hs.
  assert (same_but_events (process_session_folder folder true)
            (process_session_folder folder false)) as H.
  { unfold process_session_folder.
    apply same_but_events_bindM.
    - apply same_but_events_for_append. intros v.
      apply same_but_events_process_video. exact Hs.
    - intros cams. apply same_but_events_bindM; [apply same_but_events_liftR|].
      intros data. apply same_but_events_bindM; [apply same_but_events_emit|].
      intros _. apply same_but_events_ret. }
  exact (H w w eq_refl).
Qed.

(** ** When the assembly goes through *)

Lemma fits_same (a : ndarray3) (n0 n1 n2 : nat) :
  shape3 a = (n0, n1, n2) -> fits n0 n1 n2 a = true.
Proof.
  intros Hs. unfold fits, broadcastable. rewrite Hs, !Nat.eqb_refl. reflexivity.
Qed.

Lemma broadcast_to_same (a : ndarray3) (n0 n1 n2 : nat) :
  shape3 a = (n0, n1, n2) -> broadcast_to n0 n1 n2 a = cells3 a.
Proof.
  intros Hs. unfold broadcast_to. rewrite Hs, broadcast_axis_same.
  transitivity (map id (cells3 a)); [|apply map_id].
  apply map_ext. intros frame. rewrite broadcast_axis_same.
  transitivity (map id frame); [|apply map_id].
  apply map_ext. intros point. apply broadcast_axis_same.
Qed.

Lemma find_misfit_none (all : list ndarray3) (n0 n1 n2 : nat) :
  Forall (fun a => shape3 a = (n0, n1, n2)) all ->
  find (fun a => negb (fits n0 n1 n2 a)) all = None.
Proof.
  intros H. induction H as [|a all Ha _ IH]; cbn [find]; [reflexivity|].
  rewrite (fits_same a n0 n1 n2 Ha). exact IH.
Qed.

(** X12: when all cameras have the shape of camera 0 and two spatial
    dimensions, the assembly is an exact copy: the stacked array holds the
    array of camera [c] unchanged at index [c]. *)
Theorem stack_cameras_same_shape
    (all : list ndarray3) (n0 n1 : nat) (c : nat) (a : ndarray3) :
  Forall (fun b => shape3 b = (n0, n1, 2)) all ->
  all !! c = Some a ->
  exists data,
    stack_cameras all = Ok data
    /\ shape4 data = (length all, n0, n1, 2)
    /\ length (cells4 data) = length all
    /\ cells4 data !! c = Some (cells3 a).
Proof.
  intros Hall Hc.
  destruct all as [|first others]; [discriminate|].
  inversion Hall as [|? ? Hfirst _]; subst.
  rewrite (stack_cameras_spec first others n0 n1 2 Hfirst). cbn [Nat.eqb negb].
  rewrite (find_misfit_none _ n0 n1 2 Hall).
  eexists. split; [reflexivity|]. cbn [shape4 cells4].
  split; [reflexivity|]. split; [apply length_fmap|].
  rewrite list_lookup_fmap, Hc. cbn [fmap option_fmap option_map].
  rewrite (broadcast_to_same a n0 n1 2); [reflexivity|].
  eapply Forall_lookup_1 in Hall; [|exact Hc]. exact Hall.
Qed.

Lemma length_track (t : Tracker) (images : list Image) :
  length (track t images).1 = length images.
Proof.
  revert t. induction images as [|image images IH]; intros t; cbn [track];
    [reflexivity|].
  destruct (holistic_process t image) as [r t'].
  specialize (IH t'). destruct (track t' images) as [rs t''].
  cbn [fst length] in *. rewrite IH. reflexivity.
Qed.

(** A video and the array of all its points once it is processed. *)
Lemma for_append_cameras flag vs w cams w1 :
  catalogue_nonempty ->
  for_append (process_video flag) vs w = (Ok cams, w1) ->
  Forall2 (fun v m =>
             exists rs,
               length rs = length (decoded_prefix (frames v))
               /\ rs <> []
               /\ m = arrays (locals_after (CAP_PROP_FRAME_WIDTH v)
                                (CAP_PROP_FRAME_HEIGHT v) rs 0))
    vs cams.
Proof.
  intros Hc. apply for_append_Ok. clear w cams w1.
  intros v w m w' Hv.
  apply process_video_Ok_run in Hv as (Hne & Hout & _).
  unfold _list_of_mediapipe_results_to_npy_arrays in Hout.
  rewrite conversion_locals_spec in Hout by exact Hc. injection Hout as <-.
  eexists. split; [apply length_track|]. split; [|reflexivity].
  intros Hnil. apply Hne.
  apply (f_equal length) in Hnil. rewrite length_track in Hnil.
  destruct (decoded_prefix (frames v)); [reflexivity|discriminate].
Qed.

Lemma all_cameras_data2d_stacked vs cams :
  Forall2 (fun v m =>
             exists rs,
               length rs = length (decoded_prefix (frames v))
               /\ rs <> []
               /\ m = arrays (locals_after (CAP_PROP_FRAME_WIDTH v)
                                (CAP_PROP_FRAME_HEIGHT v) rs 0))
    vs cams ->
  exists all,
    all_cameras_data2d cams = Ok all
    /\ Forall2 (fun v a =>
                  shape3 a = (length (decoded_prefix (frames v)), points_total, 2))
         vs all.
Proof.
  intros H. unfold all_cameras_data2d.
  assert (forall acc,
            exists all,
              for_each (fun acc m2d =>
                          let! a := all_data2d_nFrames_nTrackedPts_XY m2d in
                          Ok (acc ++ [a])) cams acc = Ok (acc ++ all)
              /\ Forall2 (fun v a =>
                            shape3 a
                            = (length (decoded_prefix (frames v)), points_total, 2))
                   vs all) as Hgen.
  { induction H as [|v m vs ms (rs & Hlen & _ & ->) _ IH]; intros acc.
    - exists []. rewrite app_nil_r. split; [reflexivity|constructor].
    - cbn [for_each]. rewrite all_data2d_locals_after. cbn [bindR].
      destruct (IH (acc ++ [stacked_after (CAP_PROP_FRAME_WIDTH v)
                              (CAP_PROP_FRAME_HEIGHT v) rs])) as (all & Hrun & Hall).
      exists (stacked_after (CAP_PROP_FRAME_WIDTH v) (CAP_PROP_FRAME_HEIGHT v) rs
              :: all).
      rewrite Hrun, <- app_assoc. split; [reflexivity|].
      constructor; [|exact Hall].
      cbn [stacked_after shape3]. rewrite Hlen. reflexivity. }
  destruct (Hgen []) as (all & Hrun & Hall). exists all. split; assumption.
Qed.

(** X14: a session that ends without an exception has at least one video;
    the frame axis of its array is the number of frames decoded from the
    first video of the listing, and every other video decoded either that
    many frames or exactly one. *)
Theorem session_frame_counts
    (folder : list VideoFile) (flag : bool) (w : World)
    (data : ndarray4) (w' : World) :
  catalogue_nonempty ->
  process_session_folder folder flag w = (Ok data, w') ->
  exists v0 vs,
    glob_mp4 folder = v0 :: vs
    /\ 0 < length (decoded_prefix (frames v0))
    /\ shape4 data
       = (S (length vs), length (decoded_prefix (frames v0)), points_total, 2)
    /\ Forall (fun v =>
                 length (decoded_prefix (frames v))
                 = length (decoded_prefix (frames v0))
                 \/ length (decoded_prefix (frames v)) = 1) vs.
Proof.
  intros Hc. unfold process_session_folder. unfold bindM at 1.
  destruct (for_append (process_video flag) (glob_mp4 folder) w)
    as [[cams|e] w1] eqn:Hloop; [|discriminate].
  unfold bindM, liftR, _save_mediapipe2d_data_to_npy, emit, ret.
  destruct (assemble_cameras cams) as [data0|e] eqn:Hasm; [|discriminate].
  intros H; injection H as <- _.
  pose proof (for_append_cameras flag _ w cams w1 Hc Hloop) as Hcams.
  destruct (all_cameras_data2d_stacked _ _ Hcams) as (all & Hall & Hshapes).
  unfold assemble_cameras in Hasm. rewrite Hall in Hasm. cbn [bindR] in Hasm.
  destruct Hshapes as [|v0 first vs others Hfirst Hothers];
    [discriminate|].
  inversion Hcams as [|? m0 ? ms (rs0 & Hlen0 & Hne0 & _) _]; subst.
  rewrite (stack_cameras_spec first others _ _ _ Hfirst) in Hasm.
  cbn [Nat.eqb negb] in Hasm.
  destruct (find _ (first :: others)) as [a|] eqn:Hfind; [discriminate|].
  injection Hasm as <-. apply find_none_Forall in Hfind.
  inversion Hfind as [|? ? _ Hfits]; subst.
  exists v0, vs. split; [reflexivity|]. split.
  { rewrite <- Hlen0. destruct rs0; [congruence|cbn; lia]. }
  split.
  { cbn [shape4]. rewrite (Forall2_length _ _ _ Hothers). reflexivity. }
  clear Hfirst Hfind Hcams Hloop Hall.
  induction Hothers as [|v a vs others Ha _ IH]; [constructor|].
  inversion Hfits as [|? ? Hfit Hfits']; subst.
  constructor; [|apply IH; exact Hfits'].
  apply negb_false_iff in Hfit. unfold fits, broadcastable in Hfit.
  rewrite Ha in Hfit.
  apply andb_true_iff in Hfit as [Hfit _]. apply andb_true_iff in Hfit as [Hfit _].
  apply orb_true_iff in Hfit as [Hfit|Hfit]; apply Nat.eqb_eq in Hfit; auto.
Qed.

(** X15: the four arrays of a camera are joined along the point axis only
    when they agree on the number of frames and of spatial dimensions;
    otherwise [np.hstack] raises.  When they agree, a frame of the result is
    the body block followed by the right hand, left hand and face blocks of
    that frame. *)
Theorem all_data2d_joins_along_points
    (m : Mediapipe2dSingleCameraNpyArrays)
    (f pb d fr pr dr fl pl dl ff pf df : nat) :
  shape3 (body2d_frameNumber_trackedPointNumber_XY m) = (f, pb, d) ->
  shape3 (rightHand2d_frameNumber_trackedPointNumber_XY m) = (fr, pr, dr) ->
  shape3 (leftHand2d_frameNumber_trackedPointNumber_XY m) = (fl, pl, dl) ->
  shape3 (face2d_frameNumber_trackedPointNumber_XY m) = (ff, pf, df) ->
  ((fr, dr) <> (f, d) \/ (fl, dl) <> (f, d) \/ (ff, df) <> (f, d) ->
   all_data2d_nFrames_nTrackedPts_XY m = Raise ValueError_concatenate)
  /\ ((fr, dr) = (f, d) -> (fl, dl) = (f, d) -> (ff, df) = (f, d) ->
      exists a,
        all_data2d_nFrames_nTrackedPts_XY m = Ok a
        /\ shape3 a = (f, pb + pr + pl + pf, d)
        /\ forall i bb rb lb fb,
             i < f ->
             cells3 (body2d_frameNumber_trackedPointNumber_XY m) !! i = Some bb ->
             cells3 (rightHand2d_frameNumber_trackedPointNumber_XY m) !! i = Some rb ->
             cells3 (leftHand2d_frameNumber_trackedPointNumber_XY m) !! i = Some lb ->
             cells3 (face2d_frameNumber_trackedPointNumber_XY m) !! i = Some fb ->
             cells3 a !! i = Some (bb ++ rb ++ lb ++ fb)).
Proof.
  intros Hb Hr Hl Hf.
  unfold all_data2d_nFrames_nTrackedPts_XY, np_hstack.
  cbn [np_hstack_rest]. rewrite Hb, Hr, Hl, Hf, !Nat.eqb_refl. cbn [andb].
  split.
  - intros Hdiff.
    destruct (Nat.eqb_spec fr f), (Nat.eqb_spec dr d),
      (Nat.eqb_spec fl f), (Nat.eqb_spec dl d),
      (Nat.eqb_spec ff f), (Nat.eqb_spec df d);
      cbn [andb bindR]; try reflexivity.
    exfalso. subst. destruct Hdiff as [H|[H|H]]; apply H; reflexivity.
  - intros Hrf Hlf Hff.
    injection Hrf as -> ->. injection Hlf as -> ->. injection Hff as -> ->.
    rewrite !Nat.eqb_refl. cbn [andb bindR fst snd].
    eexists. split; [reflexivity|]. cbn [shape3 cells3]. split.
    + f_equal. f_equal. lia.
    + intros i bb rb lb fb Hi Hbb Hrb Hlb Hfb.
      rewrite !lookup_zip_with, Hbb, Hrb, Hlb, Hfb.
      rewrite lookup_replicate_2 by exact Hi. cbn.
      rewrite app_nil_r. reflexivity.
Qed.

(** ** A session that goes through *)





End Detector.

(** * What [np.empty] leaves behind *)

Lemma stack_cameras_uninitialized (u1 u2 : float) (all : list ndarray3) :
  stack_cameras u1 all = stack_cameras u2 all.
Proof.
  destruct all as [|first others]; [reflexivity|].
  destruct (shape3 first) as [[n0 n1] n2] eqn:Hs.
  rewrite (stack_cameras_spec u1 first others n0 n1 n2 Hs).
  rewrite (stack_cameras_spec u2 first others n0 n1 n2 Hs).
  reflexivity.
Qed.

(** X13: the array is allocated with [np.empty], and none of what the
    allocation leaves in memory survives: neither the outcome of a session
    nor what it writes depends on it. *)
Theorem session_ignores_uninitialized_memory
    (Image Tracker : Type)
    (holistic_process : Tracker -> Image -> MediapipeResults * Tracker)
    (draw_landmarks : Image -> option NormalizedLandmarkList -> Connections
                      -> result Image)
    (save_image_list_to_disk : VideoRecorder -> list Image -> Z -> option exn)
    (u1 u2 : float)
    (body_names_list right_hand_names_list left_hand_names_list : list string)
    (FACEMESH_NUM_LANDMARKS_WITH_IRISES : nat) (_session_id : option string)
    (folder : list (VideoFile Image)) (flag : bool) (w : World Image Tracker) :
  process_session_folder Image Tracker holistic_process draw_landmarks
    save_image_list_to_disk u1 body_names_list right_hand_names_list
    left_hand_names_list FACEMESH_NUM_LANDMARKS_WITH_IRISES _session_id
    folder flag w
  = process_session_folder Image Tracker holistic_process draw_landmarks
      save_image_list_to_disk u2 body_names_list right_hand_names_list
      left_hand_names_list FACEMESH_NUM_LANDMARKS_WITH_IRISES _session_id
      folder flag w.
Proof.
  unfold process_session_folder, bindM, liftR, assemble_cameras.
  destruct (for_append _ _ _ _ w) as [[cams|e] w1]; [|reflexivity].
  destruct (all_cameras_data2d cams) as [all|e]; [|reflexivity].
  cbn [bindR]. rewrite (stack_cameras_uninitialized u1 u2 all). reflexivity.
Qed.

(** * A session to run

    The catalogue is instantiated with MediaPipe's 33 pose landmarks, its 21
    hand landmarks and the 478 points of the face mesh with irises.  A decoded
    image is represented by what the tracker finds in it, the tracker counts
    the images it has seen, and drawing returns the image unchanged. *)

Definition pose_landmark_names : list string :=
  ["nose"; "left_eye_inner"; "left_eye"; "left_eye_outer"; "right_eye_inner";
   "right_eye"; "right_eye_outer"; "left_ear"; "right_ear"; "mouth_left";
   "mouth_right"; "left_shoulder"; "right_shoulder"; "left_elbow";
   "right_elbow"; "left_wrist"; "right_wrist"; "left_pinky"; "right_pinky";
   "left_index"; "right_index"; "left_thumb"; "right_thumb"; "left_hip";
   "right_hip"; "left_knee"; "right_knee"; "left_ankle"; "right_ankle";
   "left_heel"; "right_heel"; "left_foot_index"; "right_foot_index"].

Definition hand_landmark_names : list string :=
  ["wrist"; "thumb_cmc"; "thumb_mcp"; "thumb_ip"; "thumb_tip";
   "index_finger_mcp"; "index_finger_pip"; "index_finger_dip"; "index_finger_tip";
   "middle_finger_mcp"; "middle_finger_pip"; "middle_finger_dip"; "middle_finger_tip";
   "ring_finger_mcp"; "ring_finger_pip"; "ring_finger_dip"; "ring_finger_tip";
   "pinky_mcp"; "pinky_pip"; "pinky_dip"; "pinky_tip"].

Definition face_landmark_count : nat := 478.

Definition example_process (t : nat) (image : MediapipeResults)
    : MediapipeResults * nat :=
  (image, S t).

Definition example_draw (image : MediapipeResults)
    (_ : option NormalizedLandmarkList) (_ : Connections) : result MediapipeResults :=
  Ok image.

Definition recorder_works (_ : VideoRecorder) (_ : list MediapipeResults) (_ : Z)
    : option exn :=
  None.

Definition recorder_fails (_ : VideoRecorder) (_ : list MediapipeResults) (_ : Z)
    : option exn :=
  Some (CollaboratorError "save_image_list_to_disk").

Definition example_conversion (rs : list MediapipeResults) (w h : float)
    : result Mediapipe2dSingleCameraNpyArrays :=
  _list_of_mediapipe_results_to_npy_arrays pose_landmark_names hand_landmark_names
    hand_landmark_names face_landmark_count rs w h.

Definition example_video
    (recorder : VideoRecorder -> list MediapipeResults -> Z -> option exn)
    (flag : bool) (v : VideoFile MediapipeResults)
    : M MediapipeResults nat Mediapipe2dSingleCameraNpyArrays :=
  process_video MediapipeResults nat example_process example_draw recorder
    pose_landmark_names hand_landmark_names hand_landmark_names
    face_landmark_count (Some "session"%string) flag v.

Definition example_session
    (recorder : VideoRecorder -> list MediapipeResults -> Z -> option exn)
    (folder : list (VideoFile MediapipeResults)) (flag : bool)
    : M MediapipeResults nat ndarray4 :=
  process_session_folder MediapipeResults nat example_process example_draw recorder
    0%float pose_landmark_names hand_landmark_names hand_landmark_names
    face_landmark_count (Some "session"%string) folder flag.

Definition body_found (l : list Landmark) : MediapipeResults :=
  {| pose_landmarks := Some {| landmark := l |};
     right_hand_landmarks := None;
     left_hand_landmarks := None;
     face_landmarks := None |}.

Definition nothing_found : MediapipeResults :=
  {| pose_landmarks := None;
     right_hand_landmarks := None;
     left_hand_landmarks := None;
     face_landmarks := None |}.

Definition image_a : MediapipeResults :=
  body_found [{| x := 0.25; y := 0.5; visibility := 0.875 |};
              {| x := 0.5; y := 0.75; visibility := 0.75 |}].

Definition image_b : MediapipeResults :=
  body_found [{| x := 0.125; y := 0.25; visibility := 0.5 |}].

Definition video (name : string) (reads : list (bool * option MediapipeResults))
    : VideoFile MediapipeResults :=
  {| file_name := name;
     CAP_PROP_FRAME_WIDTH := 640;
     CAP_PROP_FRAME_HEIGHT := 480;
     frames := reads |}.

(** Two frames. *)
Definition cam0 : VideoFile MediapipeResults :=
  video "cam0.mp4" [(true, Some image_a); (true, Some image_b)].

(** One frame. *)
Definition cam1 : VideoFile MediapipeResults :=
  video "cam1.mp4" [(true, Some image_b)].

(** Two frames, then a [read] that fails in the middle of the stream. *)
Definition cam2 : VideoFile MediapipeResults :=
  video "cam2.mp4"
    [(true, Some image_b); (true, Some nothing_found); (false, None);
     (true, Some image_a)].

(** No frame can be decoded. *)
Definition broken : VideoFile MediapipeResults :=
  video "broken.mp4" [(false, None)].

Definition notes : VideoFile MediapipeResults := video "notes.txt" [].

Definition start : World MediapipeResults nat := {| tracker := 0; events := [] |}.

Lemma example_catalogue_nonempty :
  catalogue_nonempty pose_landmark_names hand_landmark_names hand_landmark_names
    face_landmark_count.
Proof.
  unfold catalogue_nonempty, face_landmark_count.
  repeat split; apply Nat.ltb_lt; reflexivity.
Defined.

Lemma example_drawing_total : drawing_total MediapipeResults example_draw.
Proof. intros image l c. exists image. reflexivity. Defined.

Lemma recorder_works_total : recorder_total MediapipeResults recorder_works.
Proof. intros recorder images frame_rate. reflexivity. Defined.

(** ** The properties at work *)

(** In frame 0 of [[image_a; nothing_found]] the body is found with two
    landmarks: all 33 body points get [(0.5 * 640, 0.75 * 480)] and all 33
    confidences get [0.75], the values of the second landmark. *)
Lemma last_landmark_fills_block_witness :
  exists out,
    example_conversion [image_a; nothing_found] 640 480 = Ok out
    /\ cells3 (body2d_frameNumber_trackedPointNumber_XY out) !! 0
       = Some (replicate 33 [320%float; 360%float])
    /\ (Body = Body ->
        cells2 (body2d_frameNumber_trackedPointNumber_confidence out) !! 0
        = Some (replicate 33 0.75%float)).
Proof.
  apply (last_landmark_fills_block pose_landmark_names hand_landmark_names
           hand_landmark_names face_landmark_count
           [image_a; nothing_found] 640 480 Body 0 image_a
           {| landmark := [{| x := 0.25; y := 0.5; visibility := 0.875 |};
                           {| x := 0.5; y := 0.75; visibility := 0.75 |}] |}
           {| x := 0.5; y := 0.75; visibility := 0.75 |}).
  - exact example_catalogue_nonempty.
  - reflexivity.
  - reflexivity.
  - reflexivity.
Defined.

(** In frame 1 of the same list nothing is found: the face block is NaN. *)
Lemma absent_part_stays_nan_witness :
  exists out,
    example_conversion [image_a; nothing_found] 640 480 = Ok out
    /\ cells3 (face2d_frameNumber_trackedPointNumber_XY out) !! 1
       = Some (replicate 478 [nan; nan])
    /\ (Face = Body ->
        cells2 (body2d_frameNumber_trackedPointNumber_confidence out) !! 1
        = Some (replicate 33 nan)).
Proof.
  apply (absent_part_stays_nan pose_landmark_names hand_landmark_names
           hand_landmark_names face_landmark_count
           [image_a; nothing_found] 640 480 Face 1 nothing_found).
  - exact example_catalogue_nonempty.
  - reflexivity.
  - reflexivity.
Defined.

Lemma visibility_flags_witness :
  exists st visible,
    conversion_locals pose_landmark_names hand_landmark_names hand_landmark_names
      face_landmark_count [image_a; nothing_found] 640 480 = Ok st
    /\ (forall part,
          part_visible_list part st !! 0 = Some (visible part)
          /\ (visible part = true
              <-> forall p k v,
                    getitem_cell (part_XY part (arrays st)) 0 p k = Some v ->
                    PrimFloat.is_nan v = false))
    /\ all_tracked_points_visible_on_this_frame_list st !! 0
       = Some (visible Body && visible RightHand && visible LeftHand && visible Face).
Proof.
  apply (visibility_flags pose_landmark_names hand_landmark_names
           hand_landmark_names face_landmark_count
           [image_a; nothing_found] 640 480 0).
  - exact example_catalogue_nonempty.
  - cbn. lia.
Defined.

(** The folder [[notes; cam0; broken; cam1]]: the session stops at [broken]. *)
Lemma first_frame_failure_aborts_witness :
  example_session recorder_works [notes; cam0; broken; cam1] true start
  = (Raise Exception,
     {| tracker := 2;
        events :=
          [OpenedVideo MediapipeResults "cam0.mp4";
           SavedAnnotatedVideo MediapipeResults
             (recorder_of MediapipeResults (Some "session"%string) cam0)
             [image_a; image_b] 30;
           OpenedVideo MediapipeResults "broken.mp4"] |}).
Proof.
  refine (proj1 (first_frame_failure_aborts MediapipeResults nat example_process
                   example_draw recorder_works 0%float pose_landmark_names
                   hand_landmark_names hand_landmark_names face_landmark_count
                   (Some "session"%string)
                   [notes; cam0; broken; cam1] true broken [cam0] [cam1] start
                   _ _)
            match example_video recorder_works true cam0 start with
            | (Ok m, _) => [m]
            | (Raise _, _) => []
            end
            {| tracker := 2;
               events :=
                 [OpenedVideo MediapipeResults "cam0.mp4";
                  SavedAnnotatedVideo MediapipeResults
                    (recorder_of MediapipeResults (Some "session"%string) cam0)
                    [image_a; image_b] 30] |}
            _).
  - reflexivity.
  - reflexivity.
  - vm_compute. reflexivity.
Defined.

Lemma empty_folder_raises_IndexError_witness :
  example_session recorder_works [notes] true start = (Raise IndexError, start).
Proof.
  apply (empty_folder_raises_IndexError MediapipeResults nat example_process
           example_draw recorder_works 0%float pose_landmark_names
           hand_landmark_names hand_landmark_names face_landmark_count
           (Some "session"%string) [notes] true start).
  reflexivity.
Defined.

(** The session over [[notes; cam0; cam2]] with annotated copies. *)
Definition two_cameras : result ndarray4 * World MediapipeResults nat :=
  example_session recorder_works [notes; cam0; cam2] true start.

Definition two_cameras_data : ndarray4 :=
  match two_cameras.1 with
  | Ok data => data
  | Raise _ => {| shape4 := (0, 0, 0, 0); cells4 := [] |}
  end.

Lemma stacked_array_layout_witness :
  two_cameras = (Ok two_cameras_data, two_cameras.2)
  /\ exists number_of_frames, shape4 two_cameras_data = (2, number_of_frames, 553, 2).
Proof.
  assert (two_cameras = (Ok two_cameras_data, two_cameras.2)) as Hrun
    by (vm_compute; reflexivity).
  split; [exact Hrun|].
  destruct (stacked_array_layout MediapipeResults nat example_process
              example_draw recorder_works 0%float pose_landmark_names
              hand_landmark_names hand_landmark_names face_landmark_count
              (Some "session"%string) [notes; cam0; cam2] true start
              two_cameras_data two_cameras.2 example_catalogue_nonempty Hrun)
    as (cams & w1 & number_of_frames & _ & _ & _ & Hshape & _).
  exists number_of_frames. exact Hshape.
Defined.

Lemma annotated_copy_name_witness :
  exists evs,
    events _ _ (example_video recorder_works true cam0 start).2
    = events _ _ start ++ OpenedVideo MediapipeResults "cam0.mp4" :: evs
    /\ (evs = []
        \/ exists images,
             evs = [SavedAnnotatedVideo MediapipeResults
                      (recorder_of MediapipeResults (Some "session"%string) cam0)
                      images 30]
             /\ recorder_video_name
                  (recorder_of MediapipeResults (Some "session"%string) cam0)
                = "cam0_mediapipe.mp4"%string)
    /\ (true = true ->
        (exists out, (example_video recorder_works true cam0 start).1 = Ok out) ->
        evs <> []).
Proof.
  apply (annotated_copy_name MediapipeResults nat example_process example_draw
           recorder_works pose_landmark_names hand_landmark_names
           hand_landmark_names face_landmark_count (Some "session"%string)
           true cam0 start).
  apply surjective_pairing.
Defined.

(** [cam2] fails to decode its third frame: it is processed like a video of
    two frames, and [cam1] is processed after it. *)
Lemma mid_stream_failure_is_end_of_stream_witness :
  example_video recorder_works true cam2 start
  = example_video recorder_works true
      (end_of_stream_after MediapipeResults cam2 [image_b; nothing_found]) start
  /\ exists out w',
       example_video recorder_works true cam2 start = (Ok out, w')
       /\ (forall part,
             shape3 (part_XY part out)
             = (2, part_points pose_landmark_names hand_landmark_names
                     hand_landmark_names face_landmark_count part, 2))
       /\ for_append MediapipeResults nat (example_video recorder_works true)
            [cam2; cam1] start
          = match for_append MediapipeResults nat (example_video recorder_works true)
                    [cam1] w' with
            | (Ok outs, w'') => (Ok (out :: outs), w'')
            | (Raise e, w'') => (Raise e, w'')
            end.
Proof.
  apply (mid_stream_failure_is_end_of_stream MediapipeResults nat example_process
           example_draw recorder_works pose_landmark_names hand_landmark_names
           hand_landmark_names face_landmark_count (Some "session"%string)
           true cam2 [image_b; nothing_found] (false, None)
           [(true, Some image_a)] [cam1] start).
  - exact example_catalogue_nonempty.
  - exact example_drawing_total.
  - exact recorder_works_total.
  - reflexivity.
  - discriminate.
  - reflexivity.
Defined.

(** With a recorder that raises, the session over [[cam0]] ends in that
    exception once the frames are read. *)
Lemma annotated_copy_failure_aborts_witness :
  let e := CollaboratorError "save_image_list_to_disk" in
  let w2 := {| tracker := 2; events := [OpenedVideo MediapipeResults "cam0.mp4"] |} in
  example_video recorder_fails true cam0 start = (Raise e, w2)
  /\ example_session recorder_fails [cam0] true start = (Raise e, w2)
  /\ no_npy_between MediapipeResults nat start w2.
Proof.
  intros e w2.
  apply (annotated_copy_failure_aborts MediapipeResults nat example_process
           example_draw recorder_fails 0%float pose_landmark_names
           hand_landmark_names hand_landmark_names face_landmark_count
           (Some "session"%string) [cam0] cam0 [] [] start [] start
           image_a [(true, Some image_b)]
           ([image_a; image_b], [image_a; image_b]) w2 e).
  - reflexivity.
  - reflexivity.
  - reflexivity.
  - reflexivity.
  - reflexivity.
Defined.

(** Ten frames against nine: the assembly raises with both shapes. *)
Lemma stack_cameras_shape_errors_witness :
  stack_cameras 0%float [np_nan3 10 553 2; np_nan3 9 553 2]
  = Raise (ValueError_broadcast [9; 553; 2] [10; 553; 2]).
Proof.
  refine (proj2 (stack_cameras_shape_errors 0%float (np_nan3 10 553 2)
                   [np_nan3 9 553 2] 10 553 2 _)
            _ [np_nan3 10 553 2] (np_nan3 9 553 2) [] 9 553 2 _ _ _ _).
  - reflexivity.
  - reflexivity.
  - reflexivity.
  - constructor; [reflexivity|constructor].
  - reflexivity.
  - left. split; discriminate.
Defined.


Lemma empty_body_catalogue_raises_TypeError_witness :
  _list_of_mediapipe_results_to_npy_arrays [] hand_landmark_names
    hand_landmark_names face_landmark_count [image_a] 640 480
  = Raise TypeError.
Proof.
  apply (empty_body_catalogue_raises_TypeError [] hand_landmark_names
           hand_landmark_names face_landmark_count image_a [] 640 480).
  reflexivity.
Defined.

(** The right hand is reported, without landmarks. *)
Definition image_c : MediapipeResults :=
  {| pose_landmarks := None;
     right_hand_landmarks := Some {| landmark := [] |};
     left_hand_landmarks := None;
     face_landmarks := None |}.

Definition example_locals (rs : list MediapipeResults) (w h : float)
    : result ConversionLocals :=
  conversion_locals pose_landmark_names hand_landmark_names hand_landmark_names
    face_landmark_count rs w h.

Lemma conversion_shapes_witness :
  exists st,
    example_locals [image_a; nothing_found] 640 480 = Ok st
    /\ shape3 (face2d_frameNumber_trackedPointNumber_XY (arrays st)) = (2, 478, 2)
    /\ length (all_tracked_points_visible_on_this_frame_list st) = 2.
Proof.
  destruct (conversion_shapes pose_landmark_names hand_landmark_names
              hand_landmark_names face_landmark_count
              [image_a; nothing_found] 640 480 example_catalogue_nonempty)
    as (st & Hrun & _ & Hparts & _ & _ & Hall).
  exists st. split; [exact Hrun|]. split; [|exact Hall].
  exact (proj1 (Hparts Face)).
Defined.

Lemma empty_landmark_list_leaves_nan_witness :
  exists st,
    example_locals [image_c] 640 480 = Ok st
    /\ cells3 (rightHand2d_frameNumber_trackedPointNumber_XY (arrays st)) !! 0
       = Some (replicate 21 [nan; nan])
    /\ all_right_hand_points_visible_on_this_frame_bool_list st !! 0 = Some false
    /\ all_tracked_points_visible_on_this_frame_list st !! 0 = Some false.
Proof.
  apply (empty_landmark_list_leaves_nan pose_landmark_names hand_landmark_names
           hand_landmark_names face_landmark_count
           [image_c] 640 480 RightHand 0 image_c {| landmark := [] |}).
  - exact example_catalogue_nonempty.
  - reflexivity.
  - reflexivity.
  - reflexivity.
Defined.

Lemma conversion_app_witness :
  exists st1 st2 st,
    example_locals [image_a] 640 480 = Ok st1
    /\ example_locals [image_b; nothing_found] 640 480 = Ok st2
    /\ example_locals [image_a; image_b; nothing_found] 640 480 = Ok st
    /\ cells3 (body2d_frameNumber_trackedPointNumber_XY (arrays st))
       = cells3 (body2d_frameNumber_trackedPointNumber_XY (arrays st1))
         ++ cells3 (body2d_frameNumber_trackedPointNumber_XY (arrays st2)).
Proof.
  destruct (conversion_app pose_landmark_names hand_landmark_names
              hand_landmark_names face_landmark_count
              [image_a] [image_b; nothing_found] 640 480
              example_catalogue_nonempty)
    as (st1 & st2 & st & H1 & H2 & H & Hparts & _).
  exists st1, st2, st. repeat split; try assumption.
  exact (proj1 (Hparts Body)).
Defined.

Lemma visibility_by_detection_witness :
  exists st,
    example_locals [image_a; nothing_found] 640 480 = Ok st
    /\ all_body_tracked_points_visible_on_this_frame_bool_list st !! 0 = Some true.
Proof.
  destruct (visibility_by_detection pose_landmark_names hand_landmark_names
              hand_landmark_names face_landmark_count
              [image_a; nothing_found] 640 480 0 image_a
              example_catalogue_nonempty eq_refl)
    as (st & Hrun & Hparts & _).
  exists st. split; [exact Hrun|].
  apply (Hparts Body).
  exists {| landmark := [{| x := 0.25; y := 0.5; visibility := 0.875 |};
                         {| x := 0.5; y := 0.75; visibility := 0.75 |}] |},
    {| x := 0.5; y := 0.75; visibility := 0.75 |}.
  repeat split; reflexivity.
Defined.

(** [cam2] on its own. *)
Definition cam2_run
    : result Mediapipe2dSingleCameraNpyArrays * World MediapipeResults nat :=
  example_video recorder_works true cam2 start.

Definition cam2_arrays : result Mediapipe2dSingleCameraNpyArrays :=
  example_conversion [image_b; nothing_found] 640 480.

Lemma process_video_tracks_decoded_frames_witness :
  exists out,
    cam2_run = (Ok out, cam2_run.2)
    /\ decoded_prefix MediapipeResults (frames MediapipeResults cam2)
       = [image_b; nothing_found]
    /\ cam2_arrays = Ok out
    /\ tracker _ _ cam2_run.2 = 2.
Proof.
  assert (exists out, cam2_run = (Ok out, cam2_run.2)) as [out Hrun]
    by (vm_compute; eexists; reflexivity).
  exists out. split; [exact Hrun|]. split; [reflexivity|].
  destruct (process_video_tracks_decoded_frames MediapipeResults nat
              example_process example_draw recorder_works pose_landmark_names
              hand_landmark_names hand_landmark_names face_landmark_count
              (Some "session"%string) true cam2 start out cam2_run.2 Hrun)
    as (_ & Hout & Ht).
  split; [exact Hout|exact Ht].
Defined.

Lemma two_cameras_run :
  exists data, two_cameras = (Ok data, two_cameras.2).
Proof. vm_compute. eexists. reflexivity. Defined.

Lemma session_tracks_all_videos_in_order_witness :
  tracker _ _ two_cameras.2 = 4.
Proof.
  destruct two_cameras_run as [data Hrun].
  exact (session_tracks_all_videos_in_order MediapipeResults nat
           example_process example_draw recorder_works 0%float
           pose_landmark_names hand_landmark_names hand_landmark_names
           face_landmark_count (Some "session"%string)
           [notes; cam0; cam2] true start data two_cameras.2 Hrun).
Defined.

Lemma session_event_trace_witness :
  exists data images0 images2,
    two_cameras = (Ok data, two_cameras.2)
    /\ length images0 = 2 /\ length images2 = 2
    /\ events _ _ two_cameras.2
       = [OpenedVideo MediapipeResults "cam0.mp4";
          SavedAnnotatedVideo MediapipeResults
            (recorder_of MediapipeResults (Some "session"%string) cam0) images0 30;
          OpenedVideo MediapipeResults "cam2.mp4";
          SavedAnnotatedVideo MediapipeResults
            (recorder_of MediapipeResults (Some "session"%string) cam2) images2 30;
          SavedNpy MediapipeResults
            "mediapipe_2dData_numCams_numFrames_numTrackedPoints_pixelXY.npy" data].
Proof.
  destruct two_cameras_run as [data Hrun].
  destruct (session_event_trace MediapipeResults nat
              example_process example_draw recorder_works 0%float
              pose_landmark_names hand_landmark_names hand_landmark_names
              face_landmark_count (Some "session"%string)
              [notes; cam0; cam2] true start data two_cameras.2 Hrun)
    as (annotated & Hall & Hev).
  change (glob_mp4 MediapipeResults [notes; cam0; cam2]) with [cam0; cam2]
    in Hall, Hev.
  inversion Hall as [|? images0 ? rest0 H0 Hrest]; subst.
  inversion Hrest as [|? images2 ? rest2 H2 Hnil]; subst.
  inversion Hnil; subst.
  exists data, images0, images2.
  split; [exact Hrun|]. split; [exact H0|]. split; [exact H2|]. exact Hev.
Defined.

Lemma annotated_copies_do_not_change_output_witness :
  (example_session recorder_works [cam0; cam1] true start).1
  = (example_session recorder_works [cam0; cam1] false start).1
  /\ tracker _ _ (example_session recorder_works [cam0; cam1] true start).2
     = tracker _ _ (example_session recorder_works [cam0; cam1] false start).2.
Proof.
  apply (annotated_copies_do_not_change_output MediapipeResults nat
           example_process example_draw recorder_works 0%float
           pose_landmark_names hand_landmark_names hand_landmark_names
           face_landmark_count (Some "session"%string) [cam0; cam1] start).
  exact recorder_works_total.
Defined.

Lemma stack_cameras_same_shape_witness :
  exists data,
    stack_cameras 0%float [np_nan3 2 3 2; np_nan3 2 3 2] = Ok data
    /\ shape4 data = (2, 2, 3, 2)
    /\ length (cells4 data) = 2
    /\ cells4 data !! 1 = Some (cells3 (np_nan3 2 3 2)).
Proof.
  apply (stack_cameras_same_shape 0%float [np_nan3 2 3 2; np_nan3 2 3 2] 2 3 1
           (np_nan3 2 3 2)).
  - repeat constructor.
  - reflexivity.
Defined.

Lemma session_frame_counts_witness :
  exists data, two_cameras = (Ok data, two_cameras.2) /\ shape4 data = (2, 2, 553, 2).
Proof.
  destruct two_cameras_run as [data Hrun].
  exists data. split; [exact Hrun|].
  destruct (session_frame_counts MediapipeResults nat
              example_process example_draw recorder_works 0%float
              pose_landmark_names hand_landmark_names hand_landmark_names
              face_landmark_count (Some "session"%string)
              [notes; cam0; cam2] true start data two_cameras.2
              example_catalogue_nonempty Hrun)
    as (v0 & vs & Hglob & _ & Hshape & _).
  change (glob_mp4 MediapipeResults [notes; cam0; cam2]) with [cam0; cam2] in Hglob.
  injection Hglob as <- <-. exact Hshape.
Defined.

(** Arrays of two frames that agree, and one whose face array has three. *)
Definition agreeing_arrays : Mediapipe2dSingleCameraNpyArrays :=
  {| body2d_frameNumber_trackedPointNumber_XY := np_nan3 2 33 2;
     rightHand2d_frameNumber_trackedPointNumber_XY := np_nan3 2 21 2;
     leftHand2d_frameNumber_trackedPointNumber_XY := np_nan3 2 21 2;
     face2d_frameNumber_trackedPointNumber_XY := np_nan3 2 478 2;
     body2d_frameNumber_trackedPointNumber_confidence := np_nan2 2 33 |}.

Definition disagreeing_arrays : Mediapipe2dSingleCameraNpyArrays :=
  {| body2d_frameNumber_trackedPointNumber_XY := np_nan3 2 33 2;
     rightHand2d_frameNumber_trackedPointNumber_XY := np_nan3 2 21 2;
     leftHand2d_frameNumber_trackedPointNumber_XY := np_nan3 2 21 2;
     face2d_frameNumber_trackedPointNumber_XY := np_nan3 3 478 2;
     body2d_frameNumber_trackedPointNumber_confidence := np_nan2 2 33 |}.

Lemma all_data2d_joins_along_points_witness :
  all_data2d_nFrames_nTrackedPts_XY disagreeing_arrays = Raise ValueError_concatenate
  /\ exists a,
       all_data2d_nFrames_nTrackedPts_XY agreeing_arrays = Ok a
       /\ shape3 a = (2, 553, 2).
Proof.
  split.
  - refine (proj1 (all_data2d_joins_along_points disagreeing_arrays
                     2 33 2 2 21 2 2 21 2 3 478 2 _ _ _ _) _);
      try reflexivity.
    right. right. discriminate.
  - destruct (proj2 (all_data2d_joins_along_points agreeing_arrays
                       2 33 2 2 21 2 2 21 2 2 478 2
                       eq_refl eq_refl eq_refl eq_refl) eq_refl eq_refl eq_refl)
      as (a & Hrun & Hshape & _).
    exists a. split; [exact Hrun|exact Hshape].
Defined.


(** ** Where the specification and the code part *)

(** C2 fails: [cam0] has two frames and [cam1] has one, yet the assembly
    raises nothing; the single frame of [cam1] is repeated to fill both frames
    of its slab in the array that is persisted. *)
Lemma single_frame_camera_is_repeated :
  match for_append MediapipeResults nat (example_video recorder_works false)
          [cam0; cam1] start with
  | (Ok [m0; m1], _) => frames_of m0 = 2 /\ frames_of m1 = 1
  | _ => False
  end
  /\ match example_session recorder_works [cam0; cam1] false start with
     | (Ok data, w') =>
         shape4 data = (2, 2, 553, 2)
         /\ (exists row, cells4 data !! 1 = Some [row; row])
         /\ last (events _ _ w')
            = Some (SavedNpy MediapipeResults
                      "mediapipe_2dData_numCams_numFrames_numTrackedPoints_pixelXY.npy"
                      data)
     | (Raise _, _) => False
     end.
Proof.
  vm_compute. repeat split. eexists. reflexivity.
Qed.

(** C6 fails: the recorder raises while the annotated copy of [cam0] is
    saved, and the session ends in that exception; no per-camera arrays are
    computed and nothing is persisted. *)
Lemma annotated_copy_failure_stops_extraction :
  example_session recorder_fails [cam0] true start
  = (Raise (CollaboratorError "save_image_list_to_disk"),
     {| tracker := 2; events := [OpenedVideo MediapipeResults "cam0.mp4"] |}).
Proof. vm_compute. reflexivity. Qed.
